(** * bfg.py: the YAML front-end of the brute-force toolkit

    A shallow embedding of [bfg.py]: the configuration loader
    ([findFile], [parseYml]), the translation of the [manage-db] and
    [brute-force] sections of the YAML document into argparse token
    lists, the interactive prompts, the database command dispatcher and
    the launch of the attack.

    Modelling conventions.
    - A loaded YAML document is a [value]; mappings are association
      lists in insertion order, which is the order [dict.items()]
      iterates in.  Keys are strings.  Floats, dates and binary scalars
      are outside the model.
    - A Python [str] is a [string] whose characters are read as the
      code points 0..255.
    - Effects are threaded through a [World] by a state monad whose
      results are a return value, a raised exception or [SystemExit].
    - The file system of a [World] has regular files, which the
      process may or may not read, and directories that it may search;
      symbolic links and names beyond the limits of the system are
      outside the model. *)

From Stdlib Require Import List String Ascii ZArith Bool Lia Permutation.
From Stdlib Require Import DecimalString.
From ExtLib Require Import Structures.Monad.
Import ListNotations.
Import MonadNotation.
Open Scope monad_scope.
Open Scope string_scope.
Open Scope Z_scope.

Set Implicit Arguments.
Set Warnings "-register-all".

(** ** Python values *)

Inductive value : Type :=
| VNone
| VBool (b : bool)
| VInt (z : Z)
| VStr (s : string)
| VList (l : list value)
| VDict (d : list (string * value)).

Definition items := list (string * value).

(** ** Strings *)

Module PyStr.

Definition code (c : ascii) : nat := nat_of_ascii c.

(** [", ".join(l)] *)
Fixpoint join (sep : string) (l : list string) : string :=
  match l with
  | [] => EmptyString
  | [x] => x
  | x :: rest => x ++ sep ++ join sep rest
  end.

(** [s.replace(a, b)] for one-character [a] and [b]. *)
Fixpoint replace (a b : ascii) (s : string) : string :=
  match s with
  | EmptyString => EmptyString
  | String c s' =>
      String (if Ascii.eqb c a then b else c) (replace a b s')
  end.

(** [str.lower] on the code points 0..255: A-Z and the accented
    capitals 0xC0..0xDE (0xD7, the multiplication sign, apart). *)
Definition lower_char (c : ascii) : ascii :=
  let n := code c in
  if ((65 <=? n) && (n <=? 90))%nat then ascii_of_nat (n + 32)
  else if ((192 <=? n) && (n <=? 222) && negb (n =? 215))%nat
       then ascii_of_nat (n + 32)
  else c.

Fixpoint lower (s : string) : string :=
  match s with
  | EmptyString => EmptyString
  | String c s' => String (lower_char c) (lower s')
  end.

Fixpoint has_char (a : ascii) (s : string) : bool :=
  match s with
  | EmptyString => false
  | String c s' => Ascii.eqb c a || has_char a s'
  end.

(** [sub in s] on strings. *)
Fixpoint contains (sub s : string) : bool :=
  String.prefix sub s
  || match s with
     | EmptyString => false
     | String _ s' => contains sub s'
     end.

Definition hex_digit (n : nat) : ascii :=
  if (n <? 10)%nat then ascii_of_nat (48 + n) else ascii_of_nat (87 + n).

(** A character is printable ([str.isprintable]) in 0..255 unless it
    is a control character, 0x7f..0xa0, or the soft hyphen 0xad. *)
Definition printable (n : nat) : bool :=
  ((32 <=? n) && (n <? 127) || (161 <=? n) && negb (n =? 173))%nat.

Definition escape_char (quote : ascii) (c : ascii) : string :=
  let n := code c in
  if Ascii.eqb c quote || Ascii.eqb c "\"%char then String "\" (String c EmptyString)
  else if (n =? 9)%nat then "\t"
  else if (n =? 10)%nat then "\n"
  else if (n =? 13)%nat then "\r"
  else if printable n then String c EmptyString
  else String "\" (String "x"
         (String (hex_digit (n / 16)) (String (hex_digit (n mod 16)) EmptyString))).

Fixpoint escape (quote : ascii) (s : string) : string :=
  match s with
  | EmptyString => EmptyString
  | String c s' => escape_char quote c ++ escape quote s'
  end.

Definition squote : ascii := "'"%char.
Definition dquote : ascii := ascii_of_nat 34.

(** [repr(s)]: single quotes, unless the text has a single quote and
    no double quote. *)
Definition repr (s : string) : string :=
  let q := if has_char squote s && negb (has_char dquote s)
           then dquote else squote in
  String q (escape q s ++ String q EmptyString).

(** [str(n)] for an [int]. *)
Definition of_Z (z : Z) : string := NilZero.string_of_int (Z.to_int z).

End PyStr.

(** ** [str], [repr], truthiness *)

(** [repr(v)] and [str(v)]: they differ on strings only, and a string
    inside a list or a dict is shown by its [repr]. *)
Fixpoint py_repr (v : value) : string :=
  match v with
  | VNone => "None"
  | VBool true => "True"
  | VBool false => "False"
  | VInt z => PyStr.of_Z z
  | VStr s => PyStr.repr s
  | VList l => "[" ++ PyStr.join ", " (map py_repr l) ++ "]"
  | VDict d =>
      "{" ++ PyStr.join ", "
               (map (fun kv => PyStr.repr (fst kv) ++ ": " ++ py_repr (snd kv)) d)
          ++ "}"
  end.

Definition py_str (v : value) : string :=
  match v with
  | VStr s => s
  | _ => py_repr v
  end.

(** [bool(v)], the test of [if v:]. *)
Definition truthy (v : value) : bool :=
  match v with
  | VNone => false
  | VBool b => b
  | VInt z => negb (z =? 0)
  | VStr s => negb (String.eqb s EmptyString)
  | VList l => match l with [] => false | _ => true end
  | VDict d => match d with [] => false | _ => true end
  end.

(** [d.get(k)] on the items of a dict. *)
Fixpoint lookup (k : string) (d : items) : option value :=
  match d with
  | [] => None
  | (k', v) :: rest => if String.eqb k' k then Some v else lookup k rest
  end.

(** [k in d.keys()] *)
Definition has_key (k : string) (d : items) : bool :=
  existsb (fun kv => String.eqb (fst kv) k) d.

(** [FLAG_TEMPLATE.format(flag=flag, value=value)], with
    [FLAG_TEMPLATE = '--{flag}={value}']; an empty format
    specification formats a value by its [str]. *)
Definition FT (flag : string) (v : value) : string :=
  "--" ++ flag ++ "=" ++ py_str v.

(** ** Exceptions, the world, the monad *)

Inductive exn_class :=
| FileNotFoundError | IsADirectoryError | PermissionError
| NotADirectoryError
| ValueError | TypeError | AttributeError | KeyError | EOFError
| OtherException (name : string)
| KeyboardInterrupt.

(** The classes [except Exception] catches: all of the above but
    [KeyboardInterrupt], which derives from [BaseException] only. *)
Definition is_Exception (c : exn_class) : bool :=
  match c with
  | KeyboardInterrupt => false
  | _ => true
  end.

Record frame := Frame { fr_file : string; fr_line : nat; fr_name : string }.

Record exn := Exn {
  exn_class_of : exn_class;
  exn_msg : string;            (* [str(e)] *)
  exn_tb : list frame          (* [e.__traceback__], outermost frame first *)
}.

Inductive node :=
| RegularFile (content : string)
| Directory
| UnreadableFile.     (* a regular file the process may not read *)

Inductive event :=
| Prompt (m : string)               (* [input(m)] shows [m] *)
| Stdout (line : string)            (* [print(line)] *)
| StdoutTbDir                       (* [print(tb.__dir__())] *)
| StderrTb (tb : list frame)        (* [traceback.print_tb(tb)] *)
| Usage                             (* [parser.print_help()] *)
| StdoutNamespace                   (* [print(args)] of a parsed namespace *)
| Log (logger msg : string).        (* [logger.info], [logger.log] *)

Record World := mkWorld {
  fs : string -> option node;
  stdin : list string;
  trace : list event   (* oldest first *)
}.

Inductive outcome (A : Type) : Type :=
| Ret (a : A)
| Raise (e : exn)
| Exit (status : Z).      (* [SystemExit] *)
Arguments Ret {A} a.
Arguments Raise {A} e.
Arguments Exit {A} status.

Definition M (A : Type) : Type := World -> outcome A * World.

(** Pure code that can raise runs in [outcome]; code with effects in
    [M], where the world a failed step leaves behind is kept. *)
#[export] Instance Monad_outcome : Monad outcome := {
  ret := fun _ a => Ret a;
  bind := fun _ _ m k =>
    match m with
    | Ret a => k a
    | Raise e => Raise e
    | Exit s => Exit s
    end
}.

#[export] Instance Monad_M : Monad M := {
  ret := fun _ a w => (Ret a, w);
  bind := fun _ _ m k w =>
    match m w with
    | (Ret a, w') => k a w'
    | (Raise e, w') => (Raise e, w')
    | (Exit s, w') => (Exit s, w')
    end
}.

(** [raise cls(msg)] at source line [line] of function [name]. *)
Definition raise {A} (cls : exn_class) (msg : string)
    (line : nat) (name : string) : M A :=
  fun w => (Raise (Exn cls msg [Frame "bfg.py" line name]), w).

(** [exit()]: [SystemExit] with status 0. *)
Definition exit {A} : M A := fun w => (Exit 0, w).

Definition lift {A} (o : outcome A) : M A := fun w => (o, w).

Definition emit (e : event) : M unit :=
  fun w => (Ret tt, mkWorld (fs w) (stdin w) (trace w ++ [e])%list).

Definition print (s : string) : M unit := emit (Stdout s).
Definition log (logger msg : string) : M unit := emit (Log logger msg).

(** [Path(p).exists()] and [Path(p).is_file()] *)
Definition path_exists (p : string) : M bool :=
  fun w => (Ret (match fs w p with Some _ => true | None => false end), w).

Definition path_is_file (p : string) : M bool :=
  fun w => (Ret (match fs w p with
                 | Some (RegularFile _) | Some UnreadableFile => true
                 | _ => false
                 end), w).

(** [for x in l: body(x)] *)
Fixpoint for_each {A} (l : list A) (body : A -> M unit) : M unit :=
  match l with
  | [] => ret tt
  | x :: rest => body x ;; for_each rest body
  end.

(** ** The loader *)

(** [findFile(path)]. The test is [not path.exists() and
    path.is_file()], with Python's short-circuit [and]. *)
Definition findFile (path yaml_file : string) : M string :=
  e <- path_exists path ;;
  c <- (if negb e then path_is_file path else ret false) ;;
  if c then raise FileNotFoundError yaml_file 49 "findFile"
  else ret path.

(** The names on the way to [p]: the prefixes of [p] that are not
    empty and end before a [/], the shortest first. *)
Fixpoint ancestors_from (walked p : string) : list string :=
  match p with
  | EmptyString => []
  | String c p' =>
      let rest := ancestors_from (walked ++ String c EmptyString) p' in
      if Ascii.eqb c "/" then
        match walked with
        | EmptyString => rest
        | _ => walked :: rest
        end
      else rest
  end.

Definition ancestors (p : string) : list string := ancestors_from EmptyString p.

(** Why a name with no entry cannot be opened: the first name on the
    way that is not a directory is a file ([ENOTDIR]), or something
    on the way, or the last name, is missing ([ENOENT]). *)
Fixpoint refusal (files : string -> option node) (way : list string)
    : exn_class :=
  match way with
  | [] => FileNotFoundError
  | q :: rest =>
      match files q with
      | Some Directory => refusal files rest
      | Some _ => NotADirectoryError
      | None => FileNotFoundError
      end
  end.

Definition nul : ascii := ascii_of_nat 0.

(** [path.open()] followed by reading the text.  A name with a null
    character has no entry ([exists()] is false of it) and [open]
    raises [ValueError] for it. *)
Definition open_read (path : string) : M string :=
  fun w =>
    let failed cls :=
      (Raise (Exn cls path [Frame "bfg.py" 239 "<module>"]), w) in
    match fs w path with
    | Some (RegularFile c) => (Ret c, w)
    | Some UnreadableFile => failed PermissionError
    | Some Directory => failed IsADirectoryError
    | None =>
        if PyStr.has_char nul path then failed ValueError
        else failed (refusal (fs w) (ancestors path))
    end.

(** The first key of [key_checks] missing from [keys]. *)
Fixpoint first_missing (key_checks : list string) (d : items) : option string :=
  match key_checks with
  | [] => None
  | v :: rest => if has_key v d then first_missing rest d else Some v
  end.

Section Loader.

(** [yaml.load(f, Loader=SafeLoader)] on the text of the file. *)
Variable loadYml : string -> outcome value.

(** [parseYml(f, key_checks)] *)
Definition parseYml (f : string) (key_checks : list string) : M items :=
  values <- lift (loadYml f) ;;
  match values with
  | VDict d =>
      match first_missing key_checks d with
      | Some v =>
          raise ValueError
            (String (ascii_of_nat 34) v ++ String (ascii_of_nat 34)
               " value must be set in the base of the YAML file.")
            76 "parseYml"
      | None => ret d
      end
  | _ => raise AttributeError "object has no attribute 'keys'" 70 "parseYml"
  end.

End Loader.

(** ** Prompts *)

Definition nl : string := String (ascii_of_nat 10) EmptyString.

(** [input(m)]: shows [m], takes the next line of standard input, and
    raises [EOFError] when there is none. *)
Definition input (m : string) : M string :=
  fun w =>
    let w' := mkWorld (fs w) (tl (stdin w)) (trace w ++ [Prompt m])%list in
    match stdin w with
    | [] => (Raise (Exn EOFError "EOF when reading a line" []), w')
    | line :: _ => (Ret line, w')
    end.

(** The test of both prompt loops: [x != 'y' and x != 'n']. *)
Definition asks_again (x : string) : bool :=
  negb (String.eqb x "y") && negb (String.eqb x "n").

(** [while x != 'y' and x != 'n': x = input(m)], started with
    [x = None].  Every turn of the loop takes one line, so the loop is
    a recursion on the lines still to come. *)
Fixpoint ask_lines (m : string) (lines : list string)
    (files : string -> option node) (tr : list event) : outcome string * World :=
  match lines with
  | [] => (Raise (Exn EOFError "EOF when reading a line" []),
           mkWorld files [] (tr ++ [Prompt m])%list)
  | x :: rest =>
      if asks_again x then ask_lines m rest files (tr ++ [Prompt m])%list
      else (Ret x, mkWorld files rest (tr ++ [Prompt m])%list)
  end.

Definition ask_until_yn (m : string) : M string :=
  fun w => ask_lines m (stdin w) (fs w) (trace w).

(** [get_user_input(m)] is that loop and [return uinput]. *)
Definition get_user_input (m : string) : M string :=
  uinput <- ask_until_yn m ;;
  ret uinput.

(** ** The database command dispatcher *)

(** What [parse_args] of the management grammar returns: the handler
    bound to the subcommand, if one was given, and the database. *)
Record DbArgs := mkDbArgs { cmd : option string; database : string }.

(** [try: m except Exception as e: h(e)] *)
Definition try_except {A} (m : M A) (h : exn -> M A) : M A :=
  fun w =>
    match m w with
    | (Raise e, w') =>
        if is_Exception (exn_class_of e) then h e w' else (Raise e, w')
    | r => r
    end.

Section Dispatcher.

(** The command line of the process, read by [parse_args()]. *)
Variable argv : list string.
(** [Manager(path)] of [bruteloops.db_manager] and the handle it
    returns; [args.cmd(args, logger, manager)]. *)
Variable Handle : Type.
Variable Manager : string -> M Handle.
Variable run_cmd : string -> DbArgs -> Handle -> M unit.

Definition not_found_prompt : string :=
  nl ++ "Database not found. Continue and create it? (y/n) ".

(** [run_db_command(parser, args)]; [parser.parse_args] leaves the
    process with status 2 on a command line it rejects. *)
Definition run_db_command (parser : list string -> M DbArgs)
    (args : option (list string)) : M unit :=
  args <- match args with
          | Some (t :: ts) => parser (t :: ts)
          | _ => parser argv
          end ;;
  match cmd args with
  | None => emit Usage ;; exit
  | Some handler =>
      log "bfg.dbmanager" "Initializing database manager" ;;
      found <- path_exists (database args) ;;
      (if negb found then
         cont <- ask_until_yn not_found_prompt ;;
         if String.eqb cont "n" then
           log "bfg.dbmanager" "Database not found. Exiting" ;; exit
         else
           print EmptyString ;;
           log "bfg.dbmanager" ("Creating database file: " ++ database args)
       else ret tt) ;;
      manager <- try_except (Manager (database args))
                   (fun e =>
                      log "bfg.dbmanager"
                          "Failed to initialize the database manager" ;;
                      lift (Raise e)) ;;
      log "bfg.dbmanager" "Executing command" ;;
      run_cmd handler args manager ;;
      log "bfg.dbmanager" "Execution finished. Exiting."
  end.

(** [handle_keyboard_interrupt(brute, exception)]; [shutdown] is
    [bf.shutdown()]. *)
Variable shutdown : M unit.

Definition handle_keyboard_interrupt : M Z :=
  print EmptyString ;;
  print ("CTRL+C Captured" ++ nl) ;;
  resp <- get_user_input "Kill brute force?(y/n): " ;;
  if String.eqb resp "y" then
    print "Kill request received" ;;
    print "Monitoring final processes completion" ;;
    shutdown ;;
    print "Exiting" ;;
    exit
  else ret 1.

End Dispatcher.

(** ** The argument normalizer *)

Definition quoted (s : string) : string :=
  String PyStr.dquote (s ++ String PyStr.dquote EmptyString).

Definition fail {A} (cls : exn_class) (msg : string) (line : nat) : outcome A :=
  Raise (Exn cls msg [Frame "bfg.py" line "<module>"]).

(** [k.replace("_","-")] *)
Definition hyphenate (k : string) : string := PyStr.replace "_" "-" k.

(** *** Management operations *)

(** The values of one flag of a management operation: the three
    branches on [isinstance(values, list)], [isinstance(values, bool)]
    and the rest. *)
Definition flag_values (values : value) : list string :=
  match values with
  | VList l => map py_str l
  | VBool _ => [PyStr.lower (py_str values)]
  | _ => [py_str values]
  end.

(** [_args = [cmd, db_arg]], then [_args += [f'--{flag}']+values] for
    every item of [argset]. *)
Definition manage_args (cmd db_arg : string) (argset : items) : list string :=
  fold_left
    (fun _args fv => (_args ++ ("--" ++ fst fv)%string :: flag_values (snd fv))%list)
    argset [cmd; db_arg].

(** *** The attack *)

(** [k in v], which is a test on the keys of a dict, a substring test
    on a string, a membership test on a list, and a [TypeError] on the
    other values. *)
Definition py_in (k : string) (v : value) (line : nat) : outcome bool :=
  match v with
  | VDict d => Ret (has_key k d)
  | VStr s => Ret (PyStr.contains k s)
  | VList l =>
      Ret (existsb (fun x => match x with
                             | VStr s => String.eqb s k
                             | _ => false
                             end) l)
  | _ => fail TypeError "argument is not iterable" line
  end.

(** [v[k]] for a string [k] *)
Definition subscript (v : value) (k : string) (line : nat) : outcome value :=
  match v with
  | VDict d =>
      match lookup k d with
      | Some x => Ret x
      | None => fail KeyError (PyStr.repr k) line
      end
  | _ => fail TypeError "indices must be integers" line
  end.

(** The [else] branch of the loop: the value [v] of the [module] key. *)
Definition module_args (v : value) : outcome (list value) :=
  has_name <- py_in "name" v 315 ;;
  if negb has_name then
    fail ValueError (quoted "name" ++ " field must be defined under "
                       ++ quoted "module" ++ ".") 317
  else
    has_args <- py_in "args" v 320 ;;
    if negb has_args then
      fail ValueError (quoted "args" ++ " field must be defined under "
                         ++ quoted "module" ++ ".") 322
    else
      name <- subscript v "name" 325 ;;
      args <- subscript v "args" 327 ;;
      match args with
      | VDict a =>
          ret (name :: map (fun kv => VStr (FT (hyphenate (fst kv)) (snd kv))) a)
      | _ => fail AttributeError "object has no attribute 'items'" 327
      end.

(** What one item [(k, v)] of the attack section appends to
    [brute_cli_args]. *)
Definition brute_entry (kv : string * value) : outcome (list value) :=
  let (k, v) := kv in
  if negb (String.eqb k "module") then
    let v := match v with
             | VBool _ => VStr (PyStr.lower (py_str v))
             | _ => v
             end in
    ret [VStr (FT (hyphenate k) v)]
  else module_args v.

(** [for k,v in bf_args.items(): ...] on the tokens so far. *)
Fixpoint brute_loop (bf_args : items) (brute_cli_args : list value)
    : outcome (list value) :=
  match bf_args with
  | [] => ret brute_cli_args
  | kv :: rest =>
      toks <- brute_entry kv ;;
      brute_loop rest (brute_cli_args ++ toks)%list
  end.

(** The body of [if bf_args:] down to the end of the loop. *)
Definition translate_brute (db_arg : string) (bf_args : items)
    : outcome (list value) :=
  if negb (has_key "module" bf_args) then
    fail ValueError (quoted "module" ++ " field must be set in the YAML file.") 287
  else brute_loop bf_args [VStr db_arg].

(** The attack section as the main program treats it: [None] when
    [if bf_args:] skips it, the outcome of the translation otherwise. *)
Definition normalize_brute (db_arg : string) (bf_args : value)
    : option (outcome (list value)) :=
  if truthy bf_args then
    Some match bf_args with
         | VDict d => translate_brute db_arg d
         | _ => fail AttributeError "object has no attribute 'keys'" 286
         end
  else None.

(** ** The main program *)

(** The namespace [brute_sp.parse_args] returns. [module] is [None]
    when the namespace has no such attribute. *)
Record Namespace := mkNamespace {
  module : option string;
  ns_process_count : value;
  ns_max_auth_tries : value;
  ns_stop_on_valid : value;
  auth_jitter_min : value;
  auth_jitter_max : value;
  threshold_jitter_min : value;
  threshold_jitter_max : value;
  ns_database : value;
  ns_log_file : value;
  ns_log_stdout : value;
  ns_log_general : value;
  ns_log_valid : value;
  ns_log_invalid : value
}.

(** What the top-level [parser.parse_args()] returns, by [args.mode]. *)
Inductive Args :=
| NoMode                       (* no subcommand: no attribute [mode] *)
| YamlMode (yaml_file : string)
| DbMode
| BruteMode (ns : Namespace).

Section Main.

Variable loadYml : string -> outcome value.
Variable argv : list string.
Variable Handle : Type.
Variable Manager : string -> M Handle.
Variable run_cmd : string -> DbArgs -> Handle -> M unit.

(** The parsers built from [bfg.parser] and [bfg.db_args.parser]:
    the top-level parser and [db_sp] as used by [run_db_command],
    and [brute_sp]. *)
Variable parser : list string -> M DbArgs.
Variable db_sp : list string -> M DbArgs.
Variable brute_sp : list value -> M Namespace.

(** The attack engine of [bruteloops]. *)
Variables Callback JitterT Engine : Type.
Variable initialize : string -> Namespace -> M Callback.
Variable Jitter : value -> value -> M JitterT.

Record Config := mkConfig {
  authentication_callback : Callback;
  process_count : value;
  max_auth_tries : value;
  stop_on_valid : value;
  authentication_jitter : JitterT;
  max_auth_jitter : JitterT;
  db_file : value;
  log_file : value;
  log_stdout : value;
  log_general : value;
  log_valid : value;
  log_invalid : value;
  exception_handlers : list exn_class
}.

Variable validate : Config -> M unit.
Variable BruteForcer : Config -> M Engine.
Variable launch : Engine -> M unit.

(** [for cmd, argset in db_args.items(): ...] *)
Definition manage_entry (db_arg : string) (entry : string * value) : M unit :=
  let (cmd, argset) := entry in
  match argset with
  | VDict a =>
      run_db_command argv Manager run_cmd db_sp
        (Some (manage_args cmd db_arg a))
  | _ =>
      raise ValueError
        ("All db-management subcommands should be configured with a "
         ++ "dictionary of supporting arguments.") 259 "<module>"
  end.

Definition do_db_management (db_arg : string) (db_args : value) : M unit :=
  if truthy db_args then
    match db_args with
    | VDict d => for_each d (manage_entry db_arg)
    | _ => raise AttributeError "object has no attribute 'items'" 255 "<module>"
    end
  else ret tt.

Definition do_brute_force (db_arg : string) (bf_args : value) (args : Args)
    : M Args :=
  match normalize_brute db_arg bf_args with
  | None => ret args
  | Some translated =>
      brute_cli_args <- lift translated ;;
      print (py_str (VList brute_cli_args)) ;;
      ns <- brute_sp brute_cli_args ;;
      emit StdoutNamespace ;;
      ret (BruteMode ns)
  end.

(** The branch [if args.mode == 'yaml':]; it returns the value of
    [args] at its end. *)
Definition yaml_mode (yaml_file : string) : M Args :=
  path <- findFile yaml_file yaml_file ;;
  yfile <- open_read path ;;
  yargs <- parseYml loadYml yfile ["database"] ;;
  db_arg <- match lookup "database" yargs with
            | Some (VStr db) => ret ("--database=" ++ db)
            | Some _ => raise TypeError "can only concatenate str to str"
                          242 "<module>"
            | None => raise KeyError "'database'" 242 "<module>"
            end ;;
  let db_args := match lookup "manage-db" yargs with
                 | Some v => v | None => VDict [] end in
  let bf_args := match lookup "brute-force" yargs with
                 | Some v => v | None => VDict [] end in
  do_db_management db_arg db_args ;;
  do_brute_force db_arg bf_args (YamlMode yaml_file).

(** The assignments to [config], down to [config.validate()]. *)
Definition assemble (args : Namespace) : M Config :=
  match module args with
  | None =>
      raise (OtherException "Exception") "No attack module supplied!"
        353 "<module>"
  | Some m =>
      callback <- initialize m args ;;
      aj <- Jitter (auth_jitter_min args) (auth_jitter_max args) ;;
      mj <- Jitter (threshold_jitter_min args) (threshold_jitter_max args) ;;
      let config :=
        {| authentication_callback := callback;
           process_count := ns_process_count args;
           max_auth_tries := ns_max_auth_tries args;
           stop_on_valid := ns_stop_on_valid args;
           authentication_jitter := aj;
           max_auth_jitter := mj;
           db_file := ns_database args;
           log_file := ns_log_file args;
           log_stdout := ns_log_stdout args;
           log_general := ns_log_general args;
           log_valid := ns_log_valid args;
           log_invalid := ns_log_invalid args;
           exception_handlers := [KeyboardInterrupt] |} in
      validate config ;;
      ret config
  end.

(** The [except Exception as e:] block. *)
Definition report (e : exn) : M unit :=
  print EmptyString ;;
  print ("Unhandled exception occurred." ++ nl) ;;
  print (exn_msg e) ;;
  print (exn_msg e) ;;
  emit StdoutTbDir ;;
  print (py_str (VInt (Z.of_nat (match exn_tb e with
                                 | f :: _ => fr_line f
                                 | [] => 0%nat
                                 end)))) ;;
  emit (StderrTb (exn_tb e)) ;;
  print EmptyString ;;
  print EmptyString.

(** The body of the [try:] statement that ends the program, and the
    statement. *)
Definition attack (config : Config) : M unit :=
  log "bfg" "Initializing attack" ;;
  bf <- BruteForcer config ;;
  launch bf ;;
  log "bfg" "Attack complete".

Definition run_campaign (config : Config) : M unit :=
  try_except (attack config) report.

(** The branch [if args.mode == 'brute':] *)
Definition brute_mode (args : Namespace) : M unit :=
  config <- assemble args ;;
  run_campaign config.

(** The script from [args = parser.parse_args()] on. *)
Definition main (args : Args) : M unit :=
  args <- match args with
          | NoMode =>
              raise AttributeError
                "'Namespace' object has no attribute 'mode'" 231 "<module>"
          | YamlMode yaml_file => yaml_mode yaml_file
          | _ => ret args
          end ;;
  match args with
  | DbMode => run_db_command argv Manager run_cmd parser None
  | _ => ret tt
  end ;;
  match args with
  | BruteMode ns => brute_mode ns
  | _ => ret tt
  end.

End Main.

(** The exit status of the process: 0 when the script runs to its end,
    the status of [SystemExit], and a non-zero status, 1, for an
    exception nothing catches. *)
Definition exit_status {A} (o : outcome A) : Z :=
  match o with
  | Ret _ => 0
  | Exit s => s
  | Raise _ => 1
  end.

(** ** Notions the statements use *)

(** The results of [f] on the elements of [l], in order, or the first
    failure. *)
Fixpoint collect {A B} (f : A -> outcome B) (l : list A) : outcome (list B) :=
  match l with
  | [] => Ret []
  | x :: rest =>
      y <- f x ;;
      ys <- collect f rest ;;
      ret (y :: ys)
  end.

(** [select sigma l] lists the elements of [l] at the positions
    [sigma]: [l] reordered, when [sigma] is a permutation of the
    positions of [l]. *)
Definition select {A} (sigma : list nat) (l : list A) : list A :=
  flat_map (fun i => match nth_error l i with
                     | Some x => [x]
                     | None => []
                     end) sigma.

(** The tokens one flag of a management operation contributes. *)
Definition flag_block (fv : string * value) : list string :=
  ("--" ++ fst fv)%string :: flag_values (snd fv).

Definition value_is_str (s : string) (v : value) : bool :=
  match v with
  | VStr s' => String.eqb s' s
  | _ => false
  end.

(** [occurs_in_order want toks]: the strings [want] are tokens of
    [toks], in this order. *)
Fixpoint occurs_in_order (want : list string) (toks : list value) : bool :=
  match want, toks with
  | [], _ => true
  | _ :: _, [] => false
  | s :: rest, t :: toks' =>
      if value_is_str s t then occurs_in_order rest toks'
      else occurs_in_order want toks'
  end.

(** The prompt refuses an answer that is neither [y] nor [n]. *)
Definition refused (x : string) : Prop := x <> "y" /\ x <> "n".

(** A prompt [p] returns [r] exactly when [r] is [y] or [n] and is the
    first such line of the input; each line before it was refused and
    asked for again. *)
Definition accepts_only_y_n (p : string -> M string) : Prop :=
  forall m w r w',
    p m w = (Ret r, w')
    <-> (r = "y" \/ r = "n")
        /\ exists skipped,
             Forall refused skipped
             /\ stdin w = (skipped ++ r :: stdin w')%list
             /\ fs w' = fs w
             /\ trace w'
                = (trace w ++ repeat (Prompt m) (S (List.length skipped)))%list.

(** ** The tokens in the order of the document *)

(** The tokens of a management operation and of the attack, written
    down from the document in the order in which it declares its
    entries. *)
Module Declared.

(** The text of a scalar: a boolean in lower case. *)
Definition text (v : value) : string :=
  match v with
  | VBool true => "true"
  | VBool false => "false"
  | _ => py_str v
  end.

(** A flag of a management operation: its name, then its elements in
    their order when the value is a list, its text otherwise. *)
Definition flag (fv : string * value) : list string :=
  ("--" ++ fst fv)%string
  :: match snd fv with
     | VList l => map py_str l
     | v => [text v]
     end.

Definition operation (cmd db_arg : string) (argset : items) : list string :=
  cmd :: db_arg :: flat_map flag argset.

(** A parameter of the attack and an argument of the module. *)
Definition parameter (kv : string * value) : value :=
  VStr ("--" ++ hyphenate (fst kv) ++ "=" ++ text (snd kv)).

Definition argument (kv : string * value) : value :=
  VStr ("--" ++ hyphenate (fst kv) ++ "=" ++ py_str (snd kv)).

(** An entry of the attack section: the name of the module and then
    its arguments in their order, for the entry [module]; one
    parameter, for another entry. *)
Definition entry (kv : string * value) : list value :=
  if String.eqb (fst kv) "module" then
    match snd kv with
    | VDict m =>
        match lookup "name" m, lookup "args" m with
        | Some name, Some (VDict a) => name :: map argument a
        | _, _ => []
        end
    | _ => []
    end
  else [parameter kv].

Definition attack (db_arg : string) (d : items) : list value :=
  VStr db_arg :: flat_map entry d.

(** An entry [module] is a mapping with a [name] and with [args] that
    are a mapping. *)
Definition well_formed (kv : string * value) : Prop :=
  fst kv = "module" ->
  exists m name a,
    snd kv = VDict m /\ lookup "name" m = Some name
    /\ lookup "args" m = Some (VDict a).

End Declared.

(** ** The grammar of the attack *)

(** Modelled from the spec: the grammar of the attack, [brute_sp],
    which the script builds from [bfg.parser], a module that is not
    among the sources.  The spec has every key of the attack section
    but [module] become a flag token and the module name a positional
    token that precedes the flags of the module (section 4.2); the
    attack "requires a module selector plus that module's flags
    appended positionally" (section 6); the parameters of the attack
    are those of the execution configuration (sections 3 and 4.4); a
    sequence of normalized tokens "must parse successfully" (section
    8), and [--process-count=4] is read as the number 4 where the
    normalizer puts it, after the module and its flags (the scenario
    of section 8).  So: a token [--flag=value] whose flag names a
    parameter of the attack sets it, wherever it stands; another
    token [--flag=value] is a flag of the module and needs the module
    before it; the one token that is no flag selects the module; a
    value written in decimal digits is read as that number. *)
Module SpecGrammar.

Definition parameters : list string :=
  ["database"; "process-count"; "max-auth-tries"; "stop-on-valid";
   "auth-jitter-min"; "auth-jitter-max";
   "threshold-jitter-min"; "threshold-jitter-max";
   "log-file"; "log-stdout"; "log-general"; "log-valid"; "log-invalid"].

(** [flag=value] at its first [=]. *)
Fixpoint split_eq (s : string) : option (string * string) :=
  match s with
  | EmptyString => None
  | String c s' =>
      if Ascii.eqb c "=" then Some (EmptyString, s')
      else match split_eq s' with
           | Some (f, v) => Some (String c f, v)
           | None => None
           end
  end.

Definition flag (token : string) : option (string * string) :=
  match token with
  | String "-" (String "-" rest) => split_eq rest
  | _ => None
  end.

Fixpoint digits (s : string) (acc : Z) : option Z :=
  match s with
  | EmptyString => Some acc
  | String c s' =>
      let n := nat_of_ascii c in
      if ((48 <=? n) && (n <=? 57))%nat
      then digits s' (10 * acc + Z.of_nat (n - 48))
      else None
  end.

Definition read (v : string) : value :=
  match v with
  | EmptyString => VStr v
  | _ => match digits v 0 with
         | Some z => VInt z
         | None => VStr v
         end
  end.

(** The module selected and the parameters set, the last set first. *)
Fixpoint scan (tokens : list value) (selected : option string)
    (set : items) : option (string * items) :=
  match tokens with
  | [] => match selected with
          | Some m => Some (m, set)
          | None => None
          end
  | VStr token :: rest =>
      match flag token with
      | Some (f, v) =>
          if existsb (String.eqb f) parameters
          then scan rest selected ((f, read v) :: set)
          else match selected with
               | Some _ => scan rest selected set
               | None => None
               end
      | None =>
          match token, selected with
          | String "-" _, _ => None
          | _, None => scan rest (Some token) set
          | _, Some _ => None
          end
      end
  | _ :: _ => None
  end.

Definition get (f : string) (set : items) : value :=
  match lookup f set with
  | Some v => v
  | None => VNone
  end.

(** Modelled from the spec: [brute_sp.parse_args], of the parser built
    from [bfg.parser], which is not among the sources.  It gives the
    namespace of the tokens; tokens the grammar refuses end the
    process with status 2. *)
Definition brute_sp (tokens : list value) : M Namespace :=
  match scan tokens None [] with
  | Some (m, set) =>
      ret (mkNamespace (Some m)
             (get "process-count" set) (get "max-auth-tries" set)
             (get "stop-on-valid" set)
             (get "auth-jitter-min" set) (get "auth-jitter-max" set)
             (get "threshold-jitter-min" set) (get "threshold-jitter-max" set)
             (get "database" set)
             (get "log-file" set) (get "log-stdout" set)
             (get "log-general" set) (get "log-valid" set)
             (get "log-invalid" set))
  | None => fun w => (Exit 2, w)
  end.

End SpecGrammar.

(** ** The documents of the scenarios *)

Module Scenario.

Definition add_creds : value :=
  VDict [("database", VStr "a.db");
         ("manage-db", VDict [("add-creds", VDict [("file", VStr "c.txt")])])].

Definition ssh_attack : value :=
  VDict [("module", VDict [("name", VStr "ssh");
                           ("args", VDict [("port", VInt 22)])]);
         ("process_count", VInt 4)].

Definition ssh : value :=
  VDict [("database", VStr "a.db"); ("brute-force", ssh_attack)].



(** A world with one file, [bfg.yml], and the answers to come. *)
Definition world (answers : list string) : World :=
  mkWorld (fun p => if String.eqb p "bfg.yml"
                    then Some (RegularFile "<yaml>") else None)
          answers [].

(** A world with no file at all. *)
Definition empty_world : World := mkWorld (fun _ => None) [] [].

(** Collaborators for the concrete runs: a database grammar that
    takes the first token as the subcommand, an attack grammar that
    reads [--process-count=4], an engine that fails. *)
Definition db_grammar (tokens : list string) : M DbArgs :=
  ret (mkDbArgs (hd_error tokens) "a.db").

Definition namespace : Namespace :=
  mkNamespace (Some "ssh") (VInt 4) (VInt 3) (VBool false)
    (VInt 1) (VInt 2) (VInt 1) (VInt 2) (VStr "a.db")
    VNone (VBool true) (VBool true) (VBool true) (VBool false).

Definition attack_grammar (tokens : list value) : M Namespace :=
  if existsb (value_is_str "--process-count=4") tokens then ret namespace
  else fun w => (Exit 2, w).

Definition failure : exn :=
  Exn (OtherException "RuntimeError") "connection refused"
      [Frame "bfg.py" 399 "<module>"; Frame "brute.py" 120 "launch"].

Definition failing_engine (bf : unit) : M unit :=
  fun w => (Raise failure, w).

(** The script with these collaborators, on a file that loads as
    [doc] and an engine [engine]. *)
Definition program (doc : value) (engine : unit -> M unit)
    (args : Args) : M unit :=
  main (fun _ => Ret doc) []
       (fun _ => ret tt) (fun _ _ _ => ret tt)
       db_grammar db_grammar attack_grammar
       (fun _ _ => ret tt) (fun _ _ => ret tt)
       (fun _ => ret tt) (fun _ => ret tt) engine
       args.

End Scenario.

(** ** Notions the further statements use *)

(** The world [w] after the events [es]. *)
Definition after (w : World) (es : list event) : World :=
  mkWorld (fs w) (stdin w) (trace w ++ es)%list.

(** The world [w] after the prompt [m] was shown [n] times, [rest]
    being the lines still to come, and then the events [es]. *)
Definition asked (w : World) (m : string) (n : nat) (rest : list string)
    (es : list event) : World :=
  mkWorld (fs w) rest (trace w ++ repeat (Prompt m) n ++ es)%list.

(** The command line [run_db_command] parses: [args] when one is
    given and is not empty ([if args:]), the command line of the
    process otherwise. *)
Definition tokens_parsed (argv : list string) (args : option (list string))
    : list string :=
  match args with
  | Some (t :: ts) => t :: ts
  | _ => argv
  end.

(** The last part of [run_db_command]: the manager is opened, the
    subcommand runs on it. *)
Definition open_and_run {Handle : Type} (Manager : string -> M Handle)
    (run_cmd : string -> DbArgs -> Handle -> M unit)
    (handler : string) (args : DbArgs) : M unit :=
  manager <- try_except (Manager (database args))
               (fun e =>
                  log "bfg.dbmanager"
                      "Failed to initialize the database manager" ;;
                  lift (Raise e)) ;;
  log "bfg.dbmanager" "Executing command" ;;
  run_cmd handler args manager ;;
  log "bfg.dbmanager" "Execution finished. Exiting.".

Definition is_str (v : value) : bool :=
  match v with
  | VStr _ => true
  | _ => false
  end.

Definition is_dict (v : value) : bool :=
  match v with
  | VDict _ => true
  | _ => false
  end.


(** [yargs.get(k, {})] *)
Definition get_or_empty (k : string) (d : items) : value :=
  match lookup k d with
  | Some v => v
  | None => VDict []
  end.

(** The outcome is an exception that [except Exception] catches. *)
Definition caught {A} (o : outcome A) : bool :=
  match o with
  | Raise e => is_Exception (exn_class_of e)
  | _ => false
  end.

(** The world [w] after the handler of the interrupt announced itself
    and asked [n] times. *)
Definition kill_prompt_shown (w : World) (n : nat) (rest : list string)
    (es : list event) : World :=
  asked (after w [Stdout EmptyString; Stdout ("CTRL+C Captured" ++ nl)])
        "Kill brute force?(y/n): " n rest es.

(** The configuration the assignments of lines 357-387 build from the
    namespace, the callback and the two jitters. *)
Definition config_of {Callback JitterT : Type} (args : Namespace)
    (callback : Callback) (aj mj : JitterT) : Config Callback JitterT :=
  {| authentication_callback := callback;
     process_count := ns_process_count args;
     max_auth_tries := ns_max_auth_tries args;
     stop_on_valid := ns_stop_on_valid args;
     authentication_jitter := aj;
     max_auth_jitter := mj;
     db_file := ns_database args;
     log_file := ns_log_file args;
     log_stdout := ns_log_stdout args;
     log_general := ns_log_general args;
     log_valid := ns_log_valid args;
     log_invalid := ns_log_invalid args;
     exception_handlers := [KeyboardInterrupt] |}.

(** The concrete runs of the further statements. *)
Module Cases.

(** A world where the store [a.db] exists. *)
Definition with_store (answers : list string) : World :=
  mkWorld (fun p => if String.eqb p "a.db" then Some (RegularFile EmptyString)
                    else if String.eqb p "bfg.yml"
                         then Some (RegularFile "<yaml>") else None)
          answers [].

Definition no_command (tokens : list string) : M DbArgs :=
  ret (mkDbArgs None "a.db").

Definition locked : exn :=
  Exn (OtherException "OperationalError") "database is locked"
      [Frame "bfg.py" 155 "run_db_command"].

Definition failing_manager (path : string) : M unit :=
  fun w => (Raise locked, w).

Definition invalid : exn :=
  Exn ValueError "jitter bounds" [Frame "config.py" 80 "validate"].

Definition refusing_validate (config : Config unit unit) : M unit :=
  fun w => (Raise invalid, w).

End Cases.

(** * Properties *)

(** ** The loader *)

Lemma findFile_returns (path yaml_file : string) (w : World) :
  findFile path yaml_file w = (Ret path, w).
Proof.
  unfold findFile, path_exists, path_is_file.
  destruct (fs w path) as [[c| |]|] eqn:E; cbn; rewrite ?E; cbn; rewrite ?E;
    reflexivity.
Qed.

Lemma open_read_missing (path : string) (w : World) :
  fs w path = None ->
  PyStr.has_char nul path = false ->
  refusal (fs w) (ancestors path) = FileNotFoundError ->
  exists e, open_read path w = (Raise e, w)
            /\ exn_class_of e = FileNotFoundError.
Proof.
  intros H Hn Hr. unfold open_read. rewrite H, Hn, Hr.
  eexists. split; reflexivity.
Qed.

(** C1 (what the code does at a path that does not exist): in a world
    with no file at all, [findFile] raises nothing and returns the
    path; the claim, as the docstring of [findFile], wants
    [FileNotFoundError]. *)
Theorem findFile_missing_path_returns :
  fs Scenario.empty_world "missing.yml" = None
  /\ findFile "missing.yml" "missing.yml" Scenario.empty_world
     = (Ret "missing.yml", Scenario.empty_world).
Proof. split; reflexivity. Qed.

(** ** The prompts *)

Lemma asks_again_refused (x : string) : asks_again x = true <-> refused x.
Proof.
  unfold asks_again, refused.
  rewrite andb_true_iff, !negb_true_iff.
  split; intros [Hy Hn]; split;
    first [ now apply String.eqb_neq | now apply String.eqb_neq ].
Qed.

Lemma asks_again_accepted (x : string) :
  asks_again x = false <-> x = "y" \/ x = "n".
Proof.
  unfold asks_again.
  rewrite andb_false_iff, !negb_false_iff, !String.eqb_eq. reflexivity.
Qed.

Lemma ask_lines_returns m lines : forall files tr r w',
  ask_lines m lines files tr = (Ret r, w') ->
  (r = "y" \/ r = "n")
  /\ exists skipped,
       Forall refused skipped
       /\ lines = (skipped ++ r :: stdin w')%list
       /\ fs w' = files
       /\ trace w' = (tr ++ repeat (Prompt m) (S (List.length skipped)))%list.
Proof.
  induction lines as [|x rest IH]; intros files tr r w' H; simpl in H.
  - discriminate.
  - destruct (asks_again x) eqn:Hx.
    + apply IH in H. destruct H as [Hr [skipped (Hs & Hl & Hf & Ht)]].
      split; [exact Hr|]. exists (x :: skipped). repeat split.
      * constructor; [now apply asks_again_refused | exact Hs].
      * simpl. now rewrite Hl.
      * exact Hf.
      * rewrite Ht, <- app_assoc. reflexivity.
    + injection H as <- <-. split; [now apply asks_again_accepted|].
      exists []. repeat split; constructor.
Qed.

Lemma ask_lines_answers m skipped : forall r rest files tr,
  Forall refused skipped -> r = "y" \/ r = "n" ->
  ask_lines m (skipped ++ r :: rest) files tr
  = (Ret r, mkWorld files rest
              (tr ++ repeat (Prompt m) (S (List.length skipped)))%list).
Proof.
  induction skipped as [|x skipped IH]; intros r rest files tr Hs Hr; simpl.
  - apply asks_again_accepted in Hr. rewrite Hr. reflexivity.
  - inversion Hs as [|? ? Hx Hs']; subst.
    apply asks_again_refused in Hx. rewrite Hx.
    rewrite IH by assumption. rewrite <- app_assoc. reflexivity.
Qed.

(** When no line is an answer, the loop ends in the [EOFError] of
    [input], after one prompt per line and one more. *)
Lemma ask_lines_eof m lines : forall files tr,
  Forall refused lines ->
  exists e, ask_lines m lines files tr
            = (Raise e, mkWorld files []
                          (tr ++ repeat (Prompt m) (S (List.length lines)))%list)
            /\ exn_class_of e = EOFError.
Proof.
  induction lines as [|x rest IH]; intros files tr H; simpl.
  - eexists. split; reflexivity.
  - inversion H as [|? ? Hx Hrest]; subst.
    apply asks_again_refused in Hx. rewrite Hx.
    destruct (IH files (tr ++ [Prompt m])%list Hrest) as [e [He Hc]].
    exists e. rewrite He, <- app_assoc. split; [reflexivity | exact Hc].
Qed.

Lemma get_user_input_loop (m : string) (w : World) :
  get_user_input m w = ask_until_yn m w.
Proof.
  unfold get_user_input. cbn.
  destruct (ask_until_yn m w) as [[a|e|s] w']; reflexivity.
Qed.

Lemma ask_until_yn_accepts : accepts_only_y_n ask_until_yn.
Proof.
  intros m w r w'. unfold ask_until_yn. split.
  - apply ask_lines_returns.
  - intros [Hr [skipped (Hs & Hl & Hf & Ht)]].
    rewrite Hl, (ask_lines_answers m (stdin w') (fs w) (trace w) Hs Hr).
    destruct w' as [f' i' t']; simpl in *. now subst.
Qed.

(** C10: the prompt of [get_user_input] (the kill prompt) and the
    store-creation prompt of [run_db_command] return [r] exactly when
    [r] is the string [y] or the string [n] and every answer given
    before it was something else, each of which was followed by the
    prompt again. *)
Theorem prompts_accept_only_y_n :
  accepts_only_y_n get_user_input /\ accepts_only_y_n ask_until_yn.
Proof.
  split; [|exact ask_until_yn_accepts].
  intros m w r w'. rewrite get_user_input_loop. apply ask_until_yn_accepts.
Qed.

Lemma prompts_accept_only_y_n_witness :
  get_user_input "Kill brute force?(y/n): "
    (Scenario.world ["Y"; "yes"; EmptyString; "N"; "no"; "n"; "y"])
  = (Ret "n",
     mkWorld (fs (Scenario.world [])) ["y"]
       (repeat (Prompt "Kill brute force?(y/n): ") 6)).
Proof.
  apply (proj1 prompts_accept_only_y_n). split; [now right|].
  exists ["Y"; "yes"; EmptyString; "N"; "no"].
  repeat split.
  repeat constructor; discriminate.
Defined.

(** ** The normalizer *)

Section Blocks.

Lemma fold_flag_blocks (argset : items) : forall acc,
  fold_left
    (fun _args fv =>
       (_args ++ ("--" ++ fst fv)%string :: flag_values (snd fv))%list)
    argset acc
  = (acc ++ List.concat (map flag_block argset))%list.
Proof.
  induction argset as [|fv rest IH]; intros acc; simpl.
  - now rewrite app_nil_r.
  - rewrite IH, <- app_assoc. reflexivity.
Qed.

Lemma manage_args_blocks (cmd db_arg : string) (argset : items) :
  manage_args cmd db_arg argset
  = cmd :: db_arg :: List.concat (map flag_block argset).
Proof. unfold manage_args. now rewrite fold_flag_blocks. Qed.

Lemma brute_loop_blocks (d : items) : forall acc,
  brute_loop d acc
  = (bs <- collect brute_entry d ;; ret (acc ++ List.concat bs)%list).
Proof.
  induction d as [|kv rest IH]; intros acc; simpl.
  - now rewrite app_nil_r.
  - destruct (brute_entry kv) as [toks|e|s]; try reflexivity.
    rewrite IH. destruct (collect brute_entry rest) as [bs|e|s];
      try reflexivity.
    simpl. now rewrite app_assoc.
Qed.

Lemma select_cons {A} (i : nat) (sigma : list nat) (l : list A) :
  select (i :: sigma) l
  = (match nth_error l i with Some x => [x] | None => [] end
     ++ select sigma l)%list.
Proof. reflexivity. Qed.

Lemma select_map {A B} (f : A -> B) (sigma : list nat) (l : list A) :
  select sigma (map f l) = map f (select sigma l).
Proof.
  induction sigma as [|i sigma IH]; [reflexivity|].
  rewrite !select_cons, map_app, IH, nth_error_map.
  destruct (nth_error l i); reflexivity.
Qed.

Lemma collect_nth {A B} (f : A -> outcome B) (l : list A) :
  forall bs i, collect f l = Ret bs ->
    match nth_error l i with
    | Some x => exists b, f x = Ret b /\ nth_error bs i = Some b
    | None => nth_error bs i = None
    end.
Proof.
  induction l as [|x rest IH]; intros bs i H; simpl in H.
  - injection H as <-. now destruct i.
  - destruct (f x) as [b|e|s] eqn:Hx; try discriminate.
    destruct (collect f rest) as [bs'|e|s]; try discriminate.
    injection H as <-. destruct i as [|i]; simpl.
    + now exists b.
    + now apply IH.
Qed.

Lemma collect_cons {A B} (f : A -> outcome B) x b rest bs :
  f x = Ret b -> collect f rest = Ret bs ->
  collect f (x :: rest) = Ret (b :: bs).
Proof. intros Hx Hr. simpl. now rewrite Hx, Hr. Qed.

Lemma collect_select {A B} (f : A -> outcome B) (l : list A) bs sigma :
  collect f l = Ret bs ->
  collect f (select sigma l) = Ret (select sigma bs).
Proof.
  intros H. induction sigma as [|i sigma IH]; [reflexivity|].
  rewrite !select_cons. pose proof (collect_nth f l i H) as Hi.
  destruct (nth_error l i) as [x|].
  - destruct Hi as [b [Hb ->]]. simpl. now apply collect_cons.
  - rewrite Hi. exact IH.
Qed.

Lemma select_shift {A} (a : A) (l : list A) (sigma : list nat) :
  select (map S sigma) (a :: l) = select sigma l.
Proof.
  induction sigma as [|i sigma IH]; [reflexivity|].
  simpl map. rewrite !select_cons, IH. reflexivity.
Qed.

Lemma select_all {A} (l : list A) : select (seq 0 (List.length l)) l = l.
Proof.
  induction l as [|a l IH]; [reflexivity|].
  simpl List.length. simpl seq. rewrite select_cons, <- seq_shift, select_shift, IH.
  reflexivity.
Qed.

Lemma select_permutation {A} (l : list A) (sigma : list nat) :
  Permutation sigma (seq 0 (List.length l)) ->
  Permutation (select sigma l) l.
Proof.
  intros H. rewrite <- (select_all l) at 2.
  unfold select. now apply Permutation_flat_map.
Qed.

Lemma has_key_permutation (k : string) (d d' : items) :
  Permutation d d' -> has_key k d = has_key k d'.
Proof.
  unfold has_key. induction 1 as [|x l l' _ IH|x y l|l l' l'' _ IH1 _ IH2];
    simpl.
  - reflexivity.
  - now rewrite IH.
  - now rewrite !orb_assoc, (orb_comm (String.eqb (fst y) k)).
  - now rewrite IH1.
Qed.

End Blocks.

Lemma flag_values_bool (b : bool) :
  flag_values (VBool b) = [if b then "true" else "false"].
Proof. now destruct b. Qed.

Lemma brute_entry_bool (k : string) (b : bool) :
  String.eqb k "module" = false ->
  brute_entry (k, VBool b)
  = Ret [VStr ("--" ++ hyphenate k ++ "=" ++ if b then "true" else "false")].
Proof. intros H. unfold brute_entry. rewrite H. now destruct b. Qed.

(** A boolean among the arguments of the module keeps the capital of
    its [str]. *)
Lemma module_args_bool (name : value) (k : string) (b : bool) :
  module_args (VDict [("name", name); ("args", VDict [(k, VBool b)])])
  = Ret [name;
         VStr ("--" ++ hyphenate k ++ "=" ++ if b then "True" else "False")].
Proof. now destruct b. Qed.

(** A list among the parameters of the attack is one token. *)
Lemma brute_entry_list (k : string) (l : list value) :
  String.eqb k "module" = false ->
  brute_entry (k, VList l)
  = Ret [VStr ("--" ++ hyphenate k ++ "=" ++ py_str (VList l))].
Proof. intros H. unfold brute_entry. now rewrite H. Qed.

Lemma flag_values_list (l : list value) :
  flag_values (VList l) = map py_str l.
Proof. reflexivity. Qed.

Lemma hyphenate_no_underscore (k : string) :
  PyStr.has_char "_" (hyphenate k) = false.
Proof.
  unfold hyphenate. induction k as [|c k IH]; [reflexivity|].
  simpl. rewrite IH, orb_false_r.
  destruct (Ascii.eqb c "_") eqn:E; [reflexivity | exact E].
Qed.

Lemma brute_entry_flag (k : string) (v : value) :
  String.eqb k "module" = false ->
  exists text, brute_entry (k, v) = Ret [VStr ("--" ++ hyphenate k ++ "=" ++ text)].
Proof.
  intros H. unfold brute_entry. rewrite H.
  destruct v; eexists; reflexivity.
Qed.

(** *** The [module] key *)

Lemma empty_attack_section_is_skipped :
  has_key "module" [] = false
  /\ normalize_brute "--database=a.db" (VDict []) = None
  /\ fst (Scenario.program
            (VDict [("database", VStr "a.db"); ("brute-force", VDict [])])
            Scenario.failing_engine (YamlMode "bfg.yml") (Scenario.world []))
     = Ret tt.
Proof. repeat split. Qed.

(** C2, amended: an attack section that is not empty and has no
    [module] key makes the normalization raise [ValueError]; no token
    list is printed or parsed, the world is as it was.  An attack
    section that is empty is skipped like an absent one: nothing is
    raised, and there is no token list either. *)
Theorem missing_module_is_invalid
    (brute_sp : list value -> M Namespace) (db_arg : string) (d : items)
    (args : Args) (w : World) :
  has_key "module" d = false ->
  match d with
  | [] => do_brute_force brute_sp db_arg (VDict d) args w = (Ret args, w)
  | _ :: _ =>
      exists e,
        exn_class_of e = ValueError
        /\ normalize_brute db_arg (VDict d) = Some (Raise e)
        /\ do_brute_force brute_sp db_arg (VDict d) args w = (Raise e, w)
  end.
Proof.
  intros H. destruct d as [|kv d]; [reflexivity|].
  unfold do_brute_force, normalize_brute, translate_brute.
  rewrite H. cbn. eexists. split; [|split; reflexivity]. reflexivity.
Qed.

Lemma missing_module_is_invalid_witness :
  exists e,
    exn_class_of e = ValueError
    /\ normalize_brute "--database=a.db" (VDict [("process_count", VInt 4)])
       = Some (Raise e)
    /\ do_brute_force Scenario.attack_grammar "--database=a.db"
         (VDict [("process_count", VInt 4)]) (YamlMode "bfg.yml")
         (Scenario.world [])
       = (Raise e, Scenario.world []).
Proof.
  apply (missing_module_is_invalid Scenario.attack_grammar "--database=a.db"
           [("process_count", VInt 4)] (YamlMode "bfg.yml") (Scenario.world [])).
  reflexivity.
Defined.

(** *** Booleans, sequences, flag names *)

(** C3 (what the code does with a boolean among the arguments of the
    module, and with one inside a list of a management operation): the
    tokens are [--verify=True] and [True], the [str] of the boolean,
    and hold no [true]. *)
Theorem module_argument_boolean_is_capitalised :
  normalize_brute "--database=a.db"
    (VDict [("module", VDict [("name", VStr "ssh");
                              ("args", VDict [("verify", VBool true)])])])
  = Some (Ret [VStr "--database=a.db"; VStr "ssh"; VStr "--verify=True"])
  /\ PyStr.contains "true" "--verify=True" = false
  /\ manage_args "add-creds" "--database=a.db"
       [("flags", VList [VBool true; VBool false])]
     = ["add-creds"; "--database=a.db"; "--flags"; "True"; "False"].
Proof. repeat split. Qed.

(** C4 (what the code does with a list among the parameters of the
    attack): one token, [--usernames=['a', 'b']], that holds the [str]
    of the whole list. *)
Theorem attack_list_is_one_token :
  normalize_brute "--database=a.db"
    (VDict [("module", VDict [("name", VStr "ssh"); ("args", VDict [])]);
            ("usernames", VList [VStr "a"; VStr "b"])])
  = Some (Ret [VStr "--database=a.db"; VStr "ssh";
               VStr "--usernames=['a', 'b']"])
  /\ py_str (VList [VStr "a"; VStr "b"]) = "['a', 'b']".
Proof. split; reflexivity. Qed.

(** C5 (what the code does with an underscore in a flag of a
    management operation): the flag keeps it. *)
Theorem management_flag_keeps_underscore :
  manage_args "add-creds" "--database=a.db"
    [("credential_delimiter", VStr ":")]
  = ["add-creds"; "--database=a.db"; "--credential_delimiter"; ":"]
  /\ hyphenate "credential_delimiter" = "credential-delimiter".
Proof. split; reflexivity. Qed.

(** ** The program *)

Lemma bind_unit_ret (m : M unit) (w : World) : (m ;; ret tt) w = m w.
Proof. cbn. destruct (m w) as [[[]|e|s] w']; reflexivity. Qed.

Section Program.

Variable loadYml : string -> outcome value.
Variable argv : list string.
Variable Handle : Type.
Variable Manager : string -> M Handle.
Variable run_cmd : string -> DbArgs -> Handle -> M unit.
Variable parser : list string -> M DbArgs.
Variable db_sp : list string -> M DbArgs.
Variable brute_sp : list value -> M Namespace.
Variables Callback JitterT Engine : Type.
Variable initialize : string -> Namespace -> M Callback.
Variable Jitter : value -> value -> M JitterT.
Variable validate : Config Callback JitterT -> M unit.
Variable BruteForcer : Config Callback JitterT -> M Engine.
Variable launch : Engine -> M unit.

Local Abbreviation script :=
  (main loadYml argv Manager run_cmd parser db_sp brute_sp
        initialize Jitter validate BruteForcer launch).

(** The steps of [yaml_mode] down to the parsed document. *)
Ltac load_document Hfile Hload :=
  unfold main, yaml_mode; cbn [bind ret Monad_M];
  rewrite findFile_returns;
  unfold open_read at 1; rewrite Hfile;
  unfold parseYml at 1; cbn [bind ret Monad_M];
  unfold lift at 1; rewrite Hload.

(** C6: on a file that loads as the document [{database: a.db,
    manage-db: {add-creds: {file: c.txt}}}], the whole program is
    one call of [run_db_command], on the tokens [add-creds],
    [--database=a.db], [--file], [c.txt], whatever that call does. *)
Theorem add_creds_is_dispatched_once (yaml_file text : string) (w : World) :
  fs w yaml_file = Some (RegularFile text) ->
  loadYml text = Ret Scenario.add_creds ->
  script (YamlMode yaml_file) w
  = run_db_command argv Manager run_cmd db_sp
      (Some ["add-creds"; "--database=a.db"; "--file"; "c.txt"]) w.
Proof.
  intros Hfile Hload. load_document Hfile Hload.
  cbn -[run_db_command].
  destruct (run_db_command _ _ _ _ _ w) as [[[]|e|s] w']; reflexivity.
Qed.




Lemma report_prints (e : exn) (w : World) :
  report e w
  = (Ret tt,
     mkWorld (fs w) (stdin w)
       (trace w ++
        [Stdout EmptyString;
         Stdout ("Unhandled exception occurred." ++ nl);
         Stdout (exn_msg e); Stdout (exn_msg e); StdoutTbDir;
         Stdout (py_str (VInt (Z.of_nat (match exn_tb e with
                                         | f :: _ => fr_line f
                                         | [] => 0%nat
                                         end))));
         StderrTb (exn_tb e); Stdout EmptyString; Stdout EmptyString])%list).
Proof.
  unfold report, print, emit. cbn [bind ret Monad_M fs stdin trace].
  rewrite <- !app_assoc. reflexivity.
Qed.

(** C9, amended: when the launch raises an exception [e] that
    [except Exception] catches, the program prints the message of
    [e] and its call trace and runs to its end: the exit status is
    0. *)
Theorem launch_failure_is_reported
    (ns : Namespace) (config : Config Callback JitterT) (e : exn)
    (w0 w w1 : World) :
  assemble initialize Jitter validate ns w0 = (Ret config, w) ->
  attack BruteForcer launch config w = (Raise e, w1) ->
  is_Exception (exn_class_of e) = true ->
  run_campaign BruteForcer launch config w = report e w1
  /\ script (BruteMode ns) w0 = report e w1
  /\ fst (report e w1) = Ret tt
  /\ In (Stdout (exn_msg e)) (trace (snd (report e w1)))
  /\ In (StderrTb (exn_tb e)) (trace (snd (report e w1)))
  /\ exit_status (fst (script (BruteMode ns) w0)) = 0.
Proof.
  intros Hc Ha He.
  assert (Hrun : run_campaign BruteForcer launch config w = report e w1).
  { unfold run_campaign, try_except. now rewrite Ha, He. }
  assert (Hs : script (BruteMode ns) w0 = report e w1).
  { unfold main, brute_mode. cbn [bind ret Monad_M].
    now rewrite Hc, Hrun. }
  split; [exact Hrun|]. split; [exact Hs|].
  rewrite Hs, report_prints. cbn [fst snd trace].
  repeat split; apply in_or_app; right; simpl; tauto.
Qed.

(** An exception [except Exception] does not catch leaves the
    [try:] statement as it came. *)
Lemma interrupt_propagates (config : Config Callback JitterT) (e : exn)
    (w w1 : World) :
  attack BruteForcer launch config w = (Raise e, w1) ->
  is_Exception (exn_class_of e) = false ->
  run_campaign BruteForcer launch config w = (Raise e, w1).
Proof.
  intros Ha He. unfold run_campaign, try_except. now rewrite Ha, He.
Qed.

End Program.

(** ** The scenarios, run *)

Lemma add_creds_is_dispatched_once_witness :
  Scenario.program Scenario.add_creds Scenario.failing_engine
    (YamlMode "bfg.yml") (Scenario.world ["y"])
  = run_db_command [] (fun _ => ret tt) (fun _ _ _ => ret tt)
      Scenario.db_grammar
      (Some ["add-creds"; "--database=a.db"; "--file"; "c.txt"])
      (Scenario.world ["y"]).
Proof.
  unfold Scenario.program.
  apply (add_creds_is_dispatched_once (fun _ => Ret Scenario.add_creds) []
           (fun _ => ret tt) (fun _ _ _ => ret tt)
           Scenario.db_grammar Scenario.db_grammar Scenario.attack_grammar
           (fun _ _ => ret tt) (fun _ _ => ret tt)
           (fun _ => ret tt) (fun _ => ret tt) Scenario.failing_engine
           "bfg.yml" (text := "<yaml>") (Scenario.world ["y"]));
    reflexivity.
Defined.


(** The engine fails with an exception, the program reports it and
    ends with status 0, where the claim C9 wants a status that is not
    0. *)
Lemma launch_failure_exits_zero :
  attack (fun _ => ret tt) Scenario.failing_engine
    (mkConfig tt (VInt 4) (VInt 3) (VBool false) tt tt (VStr "a.db")
       VNone (VBool true) (VBool true) (VBool true) (VBool false)
       [KeyboardInterrupt])
    (Scenario.world [])
  = (Raise Scenario.failure,
     mkWorld (fs (Scenario.world [])) [] [Log "bfg" "Initializing attack"])
  /\ is_Exception (exn_class_of Scenario.failure) = true
  /\ exit_status
       (fst (Scenario.program Scenario.ssh Scenario.failing_engine
               (BruteMode Scenario.namespace) (Scenario.world [])))
     = 0.
Proof. repeat split. Qed.

Lemma launch_failure_is_reported_witness :
  In (StderrTb (exn_tb Scenario.failure))
     (trace (snd (Scenario.program Scenario.ssh Scenario.failing_engine
                    (BruteMode Scenario.namespace) (Scenario.world [])))).
Proof.
  unfold Scenario.program.
  set (w1 := mkWorld (fs (Scenario.world [])) [] [Log "bfg" "Initializing attack"]).
  pose proof
    (launch_failure_is_reported (fun _ => Ret Scenario.ssh) []
       (fun _ => ret tt) (fun _ _ _ => ret tt)
       Scenario.db_grammar Scenario.db_grammar Scenario.attack_grammar
       (fun _ _ => ret tt) (fun _ _ => ret tt)
       (fun _ => ret tt) (fun _ => ret tt) Scenario.failing_engine
       Scenario.namespace (Scenario.world [])
       (config := mkConfig tt (VInt 4) (VInt 3) (VBool false) tt tt
                    (VStr "a.db") VNone (VBool true) (VBool true)
                    (VBool true) (VBool false) [KeyboardInterrupt])
       (e := Scenario.failure)
       (w := Scenario.world []) (w1 := w1)
       eq_refl eq_refl eq_refl) as (_ & Hs & _ & _ & Htb & _).
  rewrite Hs. exact Htb.
Defined.

(** * Further properties *)

(** ** Steps of the monad *)

Lemma bind_ret_at {A B} (m : M A) (k : A -> M B) (w w1 : World) (a : A) :
  m w = (Ret a, w1) -> bind m k w = k a w1.
Proof. intros H. cbn. now rewrite H. Qed.

Lemma bind_stops_at {A B} (m : M A) (k : A -> M B) (w w1 : World)
    (o : outcome A) :
  m w = (o, w1) -> (forall a, o <> Ret a) ->
  bind m k w = (match o with
                | Ret _ => Exit 0
                | Raise e => Raise e
                | Exit s => Exit s
                end, w1).
Proof.
  intros H Ho. cbn. rewrite H. destruct o as [a|e|s]; [|reflexivity..].
  now destruct (Ho a).
Qed.

Lemma emit_after (e : event) (w : World) : emit e w = (Ret tt, after w [e]).
Proof. reflexivity. Qed.

Lemma after_after (w : World) (es es' : list event) :
  after (after w es) es' = after w (es ++ es')%list.
Proof. unfold after. cbn. now rewrite app_assoc. Qed.

Lemma for_each_app {A} (body : A -> M unit) (l1 l2 : list A) (w : World) :
  for_each (l1 ++ l2)%list body w = (for_each l1 body ;; for_each l2 body) w.
Proof.
  revert w. induction l1 as [|x l1 IH]; intros w; [reflexivity|].
  simpl app. cbn [for_each bind ret Monad_M].
  destruct (body x w) as [[[]|e|s] w1]; [|reflexivity..].
  rewrite IH. reflexivity.
Qed.

Lemma ask_until_yn_answers (m : string) (w : World)
    (skipped : list string) (r : string) (rest : list string) :
  stdin w = (skipped ++ r :: rest)%list -> Forall refused skipped ->
  r = "y" \/ r = "n" ->
  ask_until_yn m w = (Ret r, asked w m (S (List.length skipped)) rest []).
Proof.
  intros Hin Hs Hr. unfold ask_until_yn, asked.
  rewrite Hin, (ask_lines_answers m rest (fs w) (trace w) Hs Hr).
  now rewrite app_nil_r.
Qed.

Lemma has_key_lookup (k : string) (d : items) :
  has_key k d = true <-> exists v, lookup k d = Some v.
Proof.
  unfold has_key. induction d as [|[k' v'] d IH]; simpl.
  - split; [discriminate | intros [v H]; discriminate].
  - destruct (String.eqb k' k); simpl.
    + split; [now exists v' | reflexivity].
    + exact IH.
Qed.

Lemma has_key_false_lookup (k : string) (d : items) :
  has_key k d = false <-> lookup k d = None.
Proof.
  destruct (has_key k d) eqn:H.
  - apply has_key_lookup in H. destruct H as [v ->].
    split; discriminate.
  - split; [|reflexivity]. intros _.
    destruct (lookup k d) as [v|] eqn:L; [|reflexivity].
    assert (has_key k d = true) by (apply has_key_lookup; now exists v).
    congruence.
Qed.

Lemma string_app_assoc (a b c : string) : ((a ++ b) ++ c = a ++ (b ++ c))%string.
Proof. induction a as [|x a IH]; simpl; [reflexivity | now rewrite IH]. Qed.

(** ** The loader, further *)

Lemma first_missing_none (key_checks : list string) (d : items) :
  first_missing key_checks d = None
  <-> Forall (fun k => has_key k d = true) key_checks.
Proof.
  induction key_checks as [|k ks IH]; simpl.
  - split; [constructor | reflexivity].
  - destruct (has_key k d) eqn:Hk.
    + rewrite IH. split; [now constructor|].
      intros H. now inversion H.
    + split; [discriminate|]. intros H. inversion H. congruence.
Qed.

Lemma first_missing_some (pre post : list string) (k : string) (d : items) :
  Forall (fun k' => has_key k' d = true) pre -> has_key k d = false ->
  first_missing (pre ++ k :: post) d = Some k.
Proof.
  induction 1 as [|k' pre Hk' _ IH]; intros Hk; simpl.
  - now rewrite Hk.
  - rewrite Hk'. now apply IH.
Qed.

(** X1: [parseYml] returns the loaded mapping as it is when every
    key of [key_checks] is among its keys, and raises a [ValueError]
    that names the first key of [key_checks] that is not.  It leaves
    the world alone. *)
Theorem parseYml_checks_keys (loadYml : string -> outcome value)
    (f : string) (d : items) (w : World) :
  loadYml f = Ret (VDict d) ->
  (forall key_checks,
     Forall (fun k => has_key k d = true) key_checks ->
     parseYml loadYml f key_checks w = (Ret d, w))
  /\ (forall pre k post,
        Forall (fun k' => has_key k' d = true) pre -> has_key k d = false ->
        parseYml loadYml f (pre ++ k :: post) w
        = (Raise (Exn ValueError
                    (quoted k ++ " value must be set in the base of the YAML file.")
                    [Frame "bfg.py" 76 "parseYml"]), w)).
Proof.
  intros Hl. split.
  - intros ks Hks. unfold parseYml, lift. cbn [bind ret Monad_M]. rewrite Hl.
    apply first_missing_none in Hks. now rewrite Hks.
  - intros pre k post Hpre Hk. unfold parseYml, lift.
    cbn [bind ret Monad_M]. rewrite Hl.
    rewrite (@first_missing_some pre post k d Hpre Hk).
    unfold raise, quoted. f_equal. f_equal. f_equal.
    simpl. f_equal. now rewrite string_app_assoc.
Qed.

Lemma parseYml_checks_keys_witness :
  parseYml (fun _ => Ret Scenario.add_creds) "<yaml>" ["database"; "owner"; "x"]
    (Scenario.world [])
  = (Raise (Exn ValueError
              (quoted "owner" ++ " value must be set in the base of the YAML file.")
              [Frame "bfg.py" 76 "parseYml"]), Scenario.world []).
Proof.
  refine (proj2 (parseYml_checks_keys (fun _ => Ret Scenario.add_creds) "<yaml>"
                   (Scenario.world []) _) ["database"] "owner" ["x"] _ _).
  - reflexivity.
  - repeat constructor.
  - reflexivity.
Defined.

(** X2: a mapping that does not load as a mapping (an empty file, a
    list, a scalar) makes [parseYml] raise [AttributeError], whatever
    the keys asked for. *)
Theorem parseYml_needs_a_mapping (loadYml : string -> outcome value)
    (f : string) (v : value) (key_checks : list string) (w : World) :
  loadYml f = Ret v -> is_dict v = false ->
  exists e, parseYml loadYml f key_checks w = (Raise e, w)
            /\ exn_class_of e = AttributeError.
Proof.
  intros Hl Hv. unfold parseYml, lift. cbn [bind ret Monad_M]. rewrite Hl.
  destruct v; try discriminate; eexists; split; reflexivity.
Qed.

Lemma parseYml_needs_a_mapping_witness :
  exists e, parseYml (fun _ => Ret VNone) "<yaml>" ["database"] (Scenario.world [])
            = (Raise e, Scenario.world [])
            /\ exn_class_of e = AttributeError.
Proof.
  apply (parseYml_needs_a_mapping (fun _ => Ret VNone) "<yaml>" (v := VNone));
    reflexivity.
Defined.

(** Two worlds that differ in how their traces are bracketed. *)
Ltac same_trace :=
  unfold asked, after; cbn; rewrite ?app_nil_r; rewrite <- ?app_assoc; cbn;
  reflexivity.

(** ** The prompts, further *)

(** X3: when none of the lines to come is [y] or [n], the prompt
    ends in the [EOFError] of [input], after it was shown once per
    line and once more. *)
Theorem get_user_input_eof (m : string) (w : World) :
  Forall refused (stdin w) ->
  exists e,
    get_user_input m w
    = (Raise e, asked w m (S (List.length (stdin w))) [] [])
    /\ exn_class_of e = EOFError.
Proof.
  intros H. rewrite get_user_input_loop. unfold ask_until_yn, asked.
  destruct (ask_lines_eof m (fs w) (trace w) H) as [e [He Hc]].
  exists e. rewrite He, app_nil_r. now split.
Qed.

Lemma get_user_input_eof_witness :
  exists e,
    get_user_input "Kill brute force?(y/n): " (Scenario.world ["Y"; "quit"])
    = (Raise e,
       asked (Scenario.world ["Y"; "quit"]) "Kill brute force?(y/n): " 3 [] [])
    /\ exn_class_of e = EOFError.
Proof.
  apply (get_user_input_eof "Kill brute force?(y/n): "
           (Scenario.world ["Y"; "quit"])).
  repeat constructor; discriminate.
Defined.

(** ** The dispatcher *)

Section DispatcherProperties.

Variable argv : list string.
Variable Handle : Type.
Variable Manager : string -> M Handle.
Variable run_cmd : string -> DbArgs -> Handle -> M unit.
Variable parser : list string -> M DbArgs.

Local Abbreviation dispatch := (run_db_command argv Manager run_cmd parser).
Local Abbreviation init_log :=
  (Log "bfg.dbmanager" "Initializing database manager").

Lemma dispatch_parses (args : option (list string)) (w : World) :
  dispatch args w
  = (a <- parser (tokens_parsed argv args) ;;
     match cmd a with
     | None => emit Usage ;; exit
     | Some handler =>
         log "bfg.dbmanager" "Initializing database manager" ;;
         found <- path_exists (database a) ;;
         (if negb found then
            cont <- ask_until_yn not_found_prompt ;;
            if String.eqb cont "n" then
              log "bfg.dbmanager" "Database not found. Exiting" ;; exit
            else
              print EmptyString ;;
              log "bfg.dbmanager" ("Creating database file: " ++ database a)
          else ret tt) ;;
         open_and_run Manager run_cmd handler a
     end) w.
Proof. destruct args as [[|t ts]|]; reflexivity. Qed.

(** The steps of [run_db_command] down to the test on the store. *)
Ltac enter_dispatch Hparse Hcmd :=
  rewrite dispatch_parses, (bind_ret_at _ _ _ Hparse), Hcmd;
  unfold log, print, path_exists; cbn [bind ret Monad_M emit fs stdin trace].

(** X4: a command line with no subcommand makes [run_db_command]
    print the usage and leave with status 0: nobody is asked, no
    manager is opened. *)
Theorem no_subcommand_prints_usage (args : option (list string))
    (a : DbArgs) (w w1 : World) :
  parser (tokens_parsed argv args) w = (Ret a, w1) ->
  cmd a = None ->
  dispatch args w = (Exit 0, after w1 [Usage]).
Proof.
  intros Hparse Hcmd. rewrite dispatch_parses, (bind_ret_at _ _ _ Hparse), Hcmd.
  reflexivity.
Qed.

(** X5: when the store exists, [run_db_command] asks nothing: after
    its first log line it opens the manager and runs the subcommand,
    the lines of the input untouched. *)
Theorem store_present_is_not_asked (args : option (list string))
    (a : DbArgs) (handler : string) (nd : node) (w w1 : World) :
  parser (tokens_parsed argv args) w = (Ret a, w1) ->
  cmd a = Some handler ->
  fs w1 (database a) = Some nd ->
  dispatch args w
  = open_and_run Manager run_cmd handler a (after w1 [init_log]).
Proof.
  intros Hparse Hcmd Hfs. enter_dispatch Hparse Hcmd.
  rewrite Hfs. reflexivity.
Qed.

(** X6: when the store does not exist and the first answer that is
    [y] or [n] is [n], [run_db_command] leaves with status 0 after
    the log line "Database not found. Exiting"; no manager is opened
    and no subcommand runs, so no store is created. *)
Theorem declined_creation_exits (args : option (list string))
    (a : DbArgs) (handler : string) (w w1 : World)
    (skipped rest : list string) :
  parser (tokens_parsed argv args) w = (Ret a, w1) ->
  cmd a = Some handler ->
  fs w1 (database a) = None ->
  stdin w1 = (skipped ++ "n" :: rest)%list -> Forall refused skipped ->
  dispatch args w
  = (Exit 0,
     asked (after w1 [init_log]) not_found_prompt (S (List.length skipped)) rest
       [Log "bfg.dbmanager" "Database not found. Exiting"]).
Proof.
  intros Hparse Hcmd Hfs Hin Hs. enter_dispatch Hparse Hcmd.
  rewrite Hfs. cbn [negb].
  erewrite ask_until_yn_answers; [| exact Hin | exact Hs | now right].
  same_trace.
Qed.

(** X7: when the store does not exist and the first answer that is
    [y] or [n] is [y], [run_db_command] prints an empty line, logs
    "Creating database file" with the path and goes on to open the
    manager. *)
Theorem accepted_creation_proceeds (args : option (list string))
    (a : DbArgs) (handler : string) (w w1 : World)
    (skipped rest : list string) :
  parser (tokens_parsed argv args) w = (Ret a, w1) ->
  cmd a = Some handler ->
  fs w1 (database a) = None ->
  stdin w1 = (skipped ++ "y" :: rest)%list -> Forall refused skipped ->
  dispatch args w
  = open_and_run Manager run_cmd handler a
      (asked (after w1 [init_log]) not_found_prompt
         (S (List.length skipped)) rest
         [Stdout EmptyString;
          Log "bfg.dbmanager" ("Creating database file: " ++ database a)]).
Proof.
  intros Hparse Hcmd Hfs Hin Hs. enter_dispatch Hparse Hcmd.
  rewrite Hfs. cbn [negb].
  erewrite ask_until_yn_answers; [| exact Hin | exact Hs | now left].
  same_trace.
Qed.

(** X8: when the store exists and opening the manager raises an
    exception that [except Exception] catches, [run_db_command] logs
    "Failed to initialize the database manager" and raises the same
    exception again; the subcommand does not run. *)
Theorem manager_failure_is_raised_again (args : option (list string))
    (a : DbArgs) (handler : string) (nd : node) (e : exn) (w w1 w2 : World) :
  parser (tokens_parsed argv args) w = (Ret a, w1) ->
  cmd a = Some handler ->
  fs w1 (database a) = Some nd ->
  Manager (database a) (after w1 [init_log]) = (Raise e, w2) ->
  is_Exception (exn_class_of e) = true ->
  dispatch args w
  = (Raise e,
     after w2 [Log "bfg.dbmanager" "Failed to initialize the database manager"]).
Proof.
  intros Hparse Hcmd Hfs Hm He. enter_dispatch Hparse Hcmd.
  rewrite Hfs. cbn [negb]. unfold open_and_run, try_except, log.
  cbn [bind ret Monad_M]. unfold after in Hm. rewrite Hm, He.
  reflexivity.
Qed.

End DispatcherProperties.

Lemma no_subcommand_prints_usage_witness :
  run_db_command [] (fun _ => ret tt) (fun _ _ _ => ret tt)
    Cases.no_command None (Scenario.world ["y"])
  = (Exit 0, after (Scenario.world ["y"]) [Usage]).
Proof.
  apply (@no_subcommand_prints_usage [] unit (fun _ => ret tt)
           (fun _ _ _ => ret tt) Cases.no_command None
           (mkDbArgs None "a.db") (Scenario.world ["y"]) (Scenario.world ["y"]));
    reflexivity.
Defined.

Lemma store_present_is_not_asked_witness :
  run_db_command [] (fun _ => ret tt) (fun _ _ _ => ret tt)
    Scenario.db_grammar (Some ["add-creds"; "--database=a.db"])
    (Cases.with_store ["n"])
  = (Ret tt,
     after (Cases.with_store ["n"])
       [Log "bfg.dbmanager" "Initializing database manager";
        Log "bfg.dbmanager" "Executing command";
        Log "bfg.dbmanager" "Execution finished. Exiting."]).
Proof.
  etransitivity.
  - apply (@store_present_is_not_asked [] unit (fun _ => ret tt)
             (fun _ _ _ => ret tt) Scenario.db_grammar
             (Some ["add-creds"; "--database=a.db"])
             (mkDbArgs (Some "add-creds") "a.db") "add-creds"
             (RegularFile EmptyString)
             (Cases.with_store ["n"]) (Cases.with_store ["n"]));
      reflexivity.
  - reflexivity.
Defined.

Lemma declined_creation_exits_witness :
  run_db_command [] (fun _ => ret tt) (fun _ _ _ => ret tt)
    Scenario.db_grammar (Some ["add-creds"; "--database=a.db"])
    (Scenario.world ["no"; "N"; "n"; "y"])
  = (Exit 0,
     asked (after (Scenario.world ["no"; "N"; "n"; "y"])
              [Log "bfg.dbmanager" "Initializing database manager"])
       not_found_prompt 3 ["y"]
       [Log "bfg.dbmanager" "Database not found. Exiting"]).
Proof.
  apply (@declined_creation_exits [] unit (fun _ => ret tt)
           (fun _ _ _ => ret tt) Scenario.db_grammar
           (Some ["add-creds"; "--database=a.db"])
           (mkDbArgs (Some "add-creds") "a.db") "add-creds"
           (Scenario.world ["no"; "N"; "n"; "y"])
           (Scenario.world ["no"; "N"; "n"; "y"]) ["no"; "N"] ["y"]);
    try reflexivity.
  repeat constructor; discriminate.
Defined.

Lemma accepted_creation_proceeds_witness :
  run_db_command [] (fun _ => ret tt) (fun _ _ _ => ret tt)
    Scenario.db_grammar (Some ["add-creds"; "--database=a.db"])
    (Scenario.world ["Y"; "y"])
  = (Ret tt,
     asked (after (Scenario.world ["Y"; "y"])
              [Log "bfg.dbmanager" "Initializing database manager"])
       not_found_prompt 2 []
       [Stdout EmptyString;
        Log "bfg.dbmanager" "Creating database file: a.db";
        Log "bfg.dbmanager" "Executing command";
        Log "bfg.dbmanager" "Execution finished. Exiting."]).
Proof.
  etransitivity.
  - apply (@accepted_creation_proceeds [] unit (fun _ => ret tt)
             (fun _ _ _ => ret tt) Scenario.db_grammar
             (Some ["add-creds"; "--database=a.db"])
             (mkDbArgs (Some "add-creds") "a.db") "add-creds"
             (Scenario.world ["Y"; "y"]) (Scenario.world ["Y"; "y"])
             ["Y"] []); try reflexivity.
    repeat constructor; discriminate.
  - reflexivity.
Defined.

Lemma manager_failure_is_raised_again_witness :
  run_db_command [] Cases.failing_manager (fun _ _ _ => ret tt)
    Scenario.db_grammar (Some ["add-creds"; "--database=a.db"])
    (Cases.with_store [])
  = (Raise Cases.locked,
     after (Cases.with_store [])
       [Log "bfg.dbmanager" "Initializing database manager";
        Log "bfg.dbmanager" "Failed to initialize the database manager"]).
Proof.
  etransitivity.
  - apply (@manager_failure_is_raised_again [] unit Cases.failing_manager
             (fun _ _ _ => ret tt) Scenario.db_grammar
             (Some ["add-creds"; "--database=a.db"])
             (mkDbArgs (Some "add-creds") "a.db") "add-creds"
             (RegularFile EmptyString) Cases.locked
             (Cases.with_store []) (Cases.with_store [])
             (after (Cases.with_store [])
                [Log "bfg.dbmanager" "Initializing database manager"]));
      reflexivity.
  - reflexivity.
Defined.

(** ** The interrupt handler *)

(** X9: when the operator answers [n] to the kill prompt, after any
    number of answers that are neither [y] nor [n], the handler
    returns 1 and the engine is not shut down: the outcome does not
    depend on [shutdown]. *)
Theorem interrupt_declined_returns_1 (shutdown : M unit) (w : World)
    (skipped rest : list string) :
  stdin w = (skipped ++ "n" :: rest)%list -> Forall refused skipped ->
  handle_keyboard_interrupt shutdown w
  = (Ret 1, kill_prompt_shown w (S (List.length skipped)) rest []).
Proof.
  intros Hin Hs. unfold handle_keyboard_interrupt, print.
  cbn [bind ret Monad_M emit fs stdin trace].
  rewrite get_user_input_loop.
  erewrite ask_until_yn_answers; [| exact Hin | exact Hs | now right].
  unfold kill_prompt_shown. same_trace.
Qed.

Lemma interrupt_declined_returns_1_witness :
  handle_keyboard_interrupt (fun w => (Raise Cases.locked, w))
    (Scenario.world ["what"; "n"])
  = (Ret 1, kill_prompt_shown (Scenario.world ["what"; "n"]) 2 [] []).
Proof.
  apply (@interrupt_declined_returns_1 (fun w => (Raise Cases.locked, w))
           (Scenario.world ["what"; "n"]) ["what"] []).
  - reflexivity.
  - repeat constructor; discriminate.
Defined.

(** X10: when the operator answers [y] to the kill prompt, the
    handler prints two lines, calls [shutdown] once and, when that
    returns, prints "Exiting" and leaves with status 0; it does not
    return to the engine. *)
Theorem interrupt_confirmed_shuts_down (shutdown : M unit) (w w3 : World)
    (skipped rest : list string) :
  stdin w = (skipped ++ "y" :: rest)%list -> Forall refused skipped ->
  shutdown (kill_prompt_shown w (S (List.length skipped)) rest
              [Stdout "Kill request received";
               Stdout "Monitoring final processes completion"])
  = (Ret tt, w3) ->
  handle_keyboard_interrupt shutdown w = (Exit 0, after w3 [Stdout "Exiting"]).
Proof.
  intros Hin Hs Hsh. unfold handle_keyboard_interrupt, print.
  cbn [bind ret Monad_M emit fs stdin trace].
  rewrite get_user_input_loop.
  erewrite ask_until_yn_answers; [| exact Hin | exact Hs | now left].
  cbn [String.eqb Ascii.eqb Bool.eqb].
  match goal with
  | |- context [shutdown ?x] =>
      replace x with (kill_prompt_shown w (S (List.length skipped)) rest
                        [Stdout "Kill request received";
                         Stdout "Monitoring final processes completion"])
        by (unfold kill_prompt_shown; same_trace)
  end.
  rewrite Hsh. reflexivity.
Qed.

Lemma interrupt_confirmed_shuts_down_witness :
  handle_keyboard_interrupt (emit (Log "engine" "shutdown"))
    (Scenario.world ["y"])
  = (Exit 0,
     after (kill_prompt_shown (Scenario.world ["y"]) 1 []
              [Stdout "Kill request received";
               Stdout "Monitoring final processes completion";
               Log "engine" "shutdown"])
       [Stdout "Exiting"]).
Proof.
  apply (@interrupt_confirmed_shuts_down (emit (Log "engine" "shutdown"))
           (Scenario.world ["y"])
           (kill_prompt_shown (Scenario.world ["y"]) 1 []
              [Stdout "Kill request received";
               Stdout "Monitoring final processes completion";
               Log "engine" "shutdown"])
           [] []).
  - reflexivity.
  - constructor.
  - reflexivity.
Defined.

(** ** The normalizer, further *)

Lemma module_args_inv (v : value) (block : list value) :
  module_args v = Ret block ->
  exists m name a,
    v = VDict m /\ lookup "name" m = Some name
    /\ lookup "args" m = Some (VDict a)
    /\ block = name :: map (fun kv => VStr (FT (hyphenate (fst kv)) (snd kv))) a.
Proof.
  unfold module_args. intros H.
  destruct v as [| b | z | s | l | m]; try discriminate.
  - cbn in H. destruct (PyStr.contains "name" s); [|discriminate].
    cbn in H. destruct (PyStr.contains "args" s); discriminate.
  - cbn in H.
    destruct (existsb _ l); [|discriminate].
    cbn in H. destruct (existsb _ l); discriminate.
  - cbn [py_in bind ret Monad_outcome] in H.
    destruct (has_key "name" m); [|discriminate]. cbn [negb] in H.
    destruct (has_key "args" m); [|discriminate]. cbn [negb] in H.
    unfold subscript in H.
    destruct (lookup "name" m) as [name|] eqn:Hn; [|discriminate].
    destruct (lookup "args" m) as [[| | | | |a]|] eqn:Ha; try discriminate.
    cbn in H. injection H as <-. now exists m, name, a.
Qed.

(** X11: for a module given as a mapping, the field [name] is looked
    for first and the field [args] second, each missing one raising a
    [ValueError] that names it; with both, and [args] a mapping, the
    tokens are the name, then one flag per argument in the order of
    the document; [args] of another type raises [AttributeError]. *)
Theorem module_descriptor_fields (m : items) :
  (has_key "name" m = false ->
   module_args (VDict m)
   = fail ValueError (quoted "name" ++ " field must be defined under "
                        ++ quoted "module" ++ ".") 317)
  /\ (has_key "name" m = true -> has_key "args" m = false ->
      module_args (VDict m)
      = fail ValueError (quoted "args" ++ " field must be defined under "
                           ++ quoted "module" ++ ".") 322)
  /\ (forall name a,
        lookup "name" m = Some name -> lookup "args" m = Some (VDict a) ->
        module_args (VDict m)
        = Ret (name :: map (fun kv => VStr (FT (hyphenate (fst kv)) (snd kv))) a))
  /\ (forall name v,
        lookup "name" m = Some name -> lookup "args" m = Some v ->
        is_dict v = false ->
        exists e, module_args (VDict m) = Raise e
                  /\ exn_class_of e = AttributeError).
Proof.
  assert (Hboth : forall name v,
            lookup "name" m = Some name -> lookup "args" m = Some v ->
            has_key "name" m = true /\ has_key "args" m = true).
  { intros name v Hn Ha. split; apply has_key_lookup; eauto. }
  unfold module_args. cbn [py_in bind ret Monad_outcome]. repeat split.
  - intros ->. reflexivity.
  - intros -> ->. reflexivity.
  - intros name a Hn Ha. destruct (Hboth _ _ Hn Ha) as [-> ->].
    unfold subscript. now rewrite Hn, Ha.
  - intros name v Hn Ha Hv. destruct (Hboth _ _ Hn Ha) as [-> ->].
    unfold subscript. rewrite Hn, Ha. cbn.
    destruct v; try discriminate; eexists; split; reflexivity.
Qed.

Lemma module_descriptor_fields_witness :
  module_args (VDict [("args", VDict [("use_tls", VBool false); ("port", VInt 22)]);
                      ("name", VStr "ssh")])
  = Ret [VStr "ssh"; VStr "--use-tls=False"; VStr "--port=22"].
Proof.
  apply (proj1 (proj2 (proj2 (module_descriptor_fields
           [("args", VDict [("use_tls", VBool false); ("port", VInt 22)]);
            ("name", VStr "ssh")])))
           (VStr "ssh") [("use_tls", VBool false); ("port", VInt 22)]);
    reflexivity.
Defined.

(** X12: a module that is not a mapping (a string, a list, a number,
    a boolean, nothing) never yields tokens: the translation raises
    [ValueError] or [TypeError]. *)
Theorem module_must_be_a_mapping (v : value) :
  is_dict v = false ->
  exists e, module_args v = Raise e
            /\ (exn_class_of e = ValueError \/ exn_class_of e = TypeError).
Proof.
  intros Hv. unfold module_args.
  destruct v as [| b | z | s | l | m]; try discriminate;
    try (eexists; split; [reflexivity | now right]).
  - cbn. destruct (PyStr.contains "name" s); cbn;
      [destruct (PyStr.contains "args" s); cbn|];
      eexists; (split; [reflexivity|]); auto.
  - cbn. destruct (existsb _ l); cbn;
      [destruct (existsb _ l); cbn|];
      eexists; (split; [reflexivity|]); auto.
Qed.

Lemma module_must_be_a_mapping_witness :
  exists e, module_args (VStr "ssh name args") = Raise e
            /\ (exn_class_of e = ValueError \/ exn_class_of e = TypeError).
Proof. apply (module_must_be_a_mapping (VStr "ssh name args")). reflexivity. Defined.

Lemma brute_entry_tokens (k : string) (v : value) (block : list value) :
  brute_entry (k, v) = Ret block ->
  Forall (fun t => is_str t = true
                   \/ (k = "module"
                       /\ exists m, v = VDict m /\ lookup "name" m = Some t))
         block.
Proof.
  unfold brute_entry. destruct (String.eqb k "module") eqn:Hk; cbn [negb].
  - intros H. apply String.eqb_eq in Hk.
    apply module_args_inv in H.
    destruct H as (m & name & a & -> & Hn & _ & ->).
    constructor.
    + right. split; [exact Hk|]. now exists m.
    + apply Forall_forall. intros t Ht. apply in_map_iff in Ht.
      destruct Ht as [kv [<- _]]. now left.
  - intros H. cbn in H. injection H as <-. constructor; [now left | constructor].
Qed.

Lemma collect_tokens (d0 : items) (d : items) : forall bs,
  incl d d0 -> collect brute_entry d = Ret bs ->
  Forall (fun t => is_str t = true
                   \/ exists m, In ("module", VDict m) d0
                                /\ lookup "name" m = Some t)
         (List.concat bs).
Proof.
  induction d as [|[k v] d IH]; intros bs Hincl H;
    cbn [collect bind ret Monad_outcome] in H.
  - injection H as <-. constructor.
  - destruct (brute_entry (k, v)) as [block|e|s] eqn:Hb; try discriminate.
    destruct (collect brute_entry d) as [bs'|e|s] eqn:Hc; try discriminate.
    injection H as <-. simpl. apply Forall_app. split.
    + apply brute_entry_tokens in Hb.
      eapply Forall_impl; [|exact Hb]. intros t [Ht | [-> [m [-> Hn]]]].
      * now left.
      * right. exists m. split; [|exact Hn]. apply Hincl. now left.
    + apply IH; [|reflexivity]. intros x Hx. apply Hincl. now right.
Qed.

(** X13: every token of a translated attack section is a string,
    but for the name of the module, which is passed on as the
    document has it; so all the tokens are strings when the name is
    one. *)
Theorem attack_tokens_are_strings (db_arg : string) (d : items)
    (toks : list value) :
  translate_brute db_arg d = Ret toks ->
  Forall (fun t => is_str t = true
                   \/ exists m, In ("module", VDict m) d
                                /\ lookup "name" m = Some t) toks
  /\ ((forall m name, In ("module", VDict m) d ->
                      lookup "name" m = Some name -> is_str name = true) ->
      Forall (fun t => is_str t = true) toks).
Proof.
  intros H. unfold translate_brute in H.
  destruct (has_key "module" d); [|discriminate]. cbn [negb] in H.
  rewrite brute_loop_blocks in H.
  destruct (collect brute_entry d) as [bs|e|s] eqn:Hc; try discriminate.
  cbn in H. injection H as <-.
  assert (Hall : Forall (fun t => is_str t = true
                   \/ exists m, In ("module", VDict m) d
                                /\ lookup "name" m = Some t)
                        (VStr db_arg :: List.concat bs)).
  { constructor; [now left|].
    apply (collect_tokens (d0 := d) (d := d)); [apply incl_refl | exact Hc]. }
  split; [exact Hall|].
  intros Hname. eapply Forall_impl; [|exact Hall].
  intros t [Ht | [m [Hin Hn]]]; [exact Ht | exact (Hname m t Hin Hn)].
Qed.

Lemma attack_tokens_are_strings_witness :
  Forall (fun t => is_str t = true
                   \/ exists m,
                        In ("module", VDict m)
                           [("module", VDict [("name", VInt 22); ("args", VDict [])]);
                            ("stop_on_valid", VBool true)]
                        /\ lookup "name" m = Some t)
         [VStr "--database=a.db"; VInt 22; VStr "--stop-on-valid=true"].
Proof.
  apply (proj1 (attack_tokens_are_strings "--database=a.db"
           [("module", VDict [("name", VInt 22); ("args", VDict [])]);
            ("stop_on_valid", VBool true)] eq_refl)).
Defined.

Lemma replace_length (a b : ascii) (s : string) :
  String.length (PyStr.replace a b s) = String.length s.
Proof. induction s as [|c s IH]; simpl; [reflexivity | now rewrite IH]. Qed.

Lemma replace_absent (a b : ascii) (s : string) :
  PyStr.has_char a s = false -> PyStr.replace a b s = s.
Proof.
  induction s as [|c s IH]; simpl; [reflexivity|].
  intros H. apply orb_false_iff in H. destruct H as [Hc Hs].
  now rewrite Hc, IH.
Qed.

(** X14: the flag name made from a key of the attack section has no
    underscore and the length of the key; a key with no underscore is
    its own flag name, so making the name twice changes nothing. *)
Theorem hyphenate_flag_name (k : string) :
  PyStr.has_char "_" (hyphenate k) = false
  /\ String.length (hyphenate k) = String.length k
  /\ (PyStr.has_char "_" k = false -> hyphenate k = k)
  /\ hyphenate (hyphenate k) = hyphenate k.
Proof.
  repeat split.
  - apply hyphenate_no_underscore.
  - apply replace_length.
  - apply replace_absent.
  - apply replace_absent, hyphenate_no_underscore.
Qed.

Lemma hyphenate_flag_name_witness : hyphenate "log-file" = "log-file".
Proof. apply (proj1 (proj2 (proj2 (hyphenate_flag_name "log-file")))). reflexivity. Defined.

(** ** The program, further *)

Section ProgramProperties.

Variable loadYml : string -> outcome value.
Variable argv : list string.
Variable Handle : Type.
Variable Manager : string -> M Handle.
Variable run_cmd : string -> DbArgs -> Handle -> M unit.
Variable parser : list string -> M DbArgs.
Variable db_sp : list string -> M DbArgs.
Variable brute_sp : list value -> M Namespace.
Variables Callback JitterT Engine : Type.
Variable initialize : string -> Namespace -> M Callback.
Variable Jitter : value -> value -> M JitterT.
Variable validate : Config Callback JitterT -> M unit.
Variable BruteForcer : Config Callback JitterT -> M Engine.
Variable launch : Engine -> M unit.

Local Abbreviation script :=
  (main loadYml argv Manager run_cmd parser db_sp brute_sp
        initialize Jitter validate BruteForcer launch).
Local Abbreviation manage := (do_db_management argv Manager run_cmd db_sp).
Local Abbreviation operation := (manage_entry argv Manager run_cmd db_sp).
Local Abbreviation yaml := (yaml_mode loadYml argv Manager run_cmd db_sp brute_sp).

Lemma bind_inv {A B} (m : M A) (k : A -> M B) (w w1 : World) (b : B) :
  bind m k w = (Ret b, w1) ->
  exists a w0, m w = (Ret a, w0) /\ k a w0 = (Ret b, w1).
Proof.
  cbn. destruct (m w) as [[a|e|s] w0]; try discriminate.
  intros H. now exists a, w0.
Qed.

Lemma do_brute_force_returns (db_arg : string) (bf_args : value)
    (args a : Args) (w w1 : World) :
  do_brute_force brute_sp db_arg bf_args args w = (Ret a, w1) ->
  a = args \/ exists ns, a = BruteMode ns.
Proof.
  unfold do_brute_force. destruct (normalize_brute db_arg bf_args) as [t|].
  - intros H. right.
    apply bind_inv in H. destruct H as (toks & w2 & _ & H).
    apply bind_inv in H. destruct H as ([] & w3 & _ & H).
    apply bind_inv in H. destruct H as (ns & w4 & _ & H).
    apply bind_inv in H. destruct H as ([] & w5 & _ & H).
    injection H as <- _. now exists ns.
  - intros H. injection H as <- _. now left.
Qed.

Lemma yaml_returns (yaml_file : string) (a : Args) (w w1 : World) :
  yaml yaml_file w = (Ret a, w1) ->
  a = YamlMode yaml_file \/ exists ns, a = BruteMode ns.
Proof.
  unfold yaml_mode. intros H.
  apply bind_inv in H. destruct H as (path & w2 & _ & H).
  apply bind_inv in H. destruct H as (yfile & w3 & _ & H).
  apply bind_inv in H. destruct H as (yargs & w4 & _ & H).
  apply bind_inv in H. destruct H as (db_arg & w5 & _ & H).
  apply bind_inv in H. destruct H as ([] & w6 & _ & H).
  now apply do_brute_force_returns in H.
Qed.

(** What [main] does with the outcome of the [yaml] branch. *)
Lemma script_yaml (yaml_file : string) (w : World) :
  script (YamlMode yaml_file) w
  = (args <- yaml yaml_file ;;
     match args with
     | BruteMode ns =>
         brute_mode initialize Jitter validate BruteForcer launch ns
     | _ => ret tt
     end) w.
Proof.
  unfold main. cbn [bind ret Monad_M].
  destruct (yaml yaml_file w) as [[a|e|s] w1] eqn:Hy; try reflexivity.
  apply yaml_returns in Hy. destruct Hy as [-> | [ns ->]]; reflexivity.
Qed.

(** The steps of [yaml_mode] on a file that loads as the mapping [d]
    with a key [database]. *)
Lemma yaml_loaded (yaml_file text : string) (d : items) (w : World) :
  fs w yaml_file = Some (RegularFile text) ->
  loadYml text = Ret (VDict d) ->
  has_key "database" d = true ->
  yaml yaml_file w
  = (db_arg <- match lookup "database" d with
               | Some (VStr db) => ret ("--database=" ++ db)
               | Some _ => raise TypeError "can only concatenate str to str"
                             242 "<module>"
               | None => raise KeyError "'database'" 242 "<module>"
               end ;;
     manage db_arg (get_or_empty "manage-db" d) ;;
     do_brute_force brute_sp db_arg (get_or_empty "brute-force" d)
       (YamlMode yaml_file)) w.
Proof.
  intros Hfile Hload Hk. unfold yaml_mode. cbn [bind ret Monad_M].
  rewrite findFile_returns. unfold open_read at 1. rewrite Hfile.
  unfold parseYml at 1, lift at 1. cbn [bind ret Monad_M]. rewrite Hload.
  cbn [first_missing]. rewrite Hk. reflexivity.
Qed.




(** X16: a document with no key [database] makes the program end in
    the [ValueError] of [parseYml] that names [database]; nothing was
    asked or dispatched. *)
Theorem missing_database_is_invalid (yaml_file text : string) (d : items)
    (w : World) :
  fs w yaml_file = Some (RegularFile text) ->
  loadYml text = Ret (VDict d) ->
  has_key "database" d = false ->
  script (YamlMode yaml_file) w
  = (Raise (Exn ValueError
              (quoted "database"
               ++ " value must be set in the base of the YAML file.")
              [Frame "bfg.py" 76 "parseYml"]), w).
Proof.
  intros Hfile Hload Hk. rewrite script_yaml. unfold yaml_mode.
  cbn [bind ret Monad_M]. rewrite findFile_returns.
  unfold open_read at 1. rewrite Hfile.
  unfold parseYml at 1, lift at 1. cbn [bind ret Monad_M]. rewrite Hload.
  cbn [first_missing]. rewrite Hk. reflexivity.
Qed.

(** X17: a [database] that is not a string makes the program end in
    a [TypeError], before anything is asked or dispatched. *)
Theorem database_must_be_text (yaml_file text : string) (d : items)
    (v : value) (w : World) :
  fs w yaml_file = Some (RegularFile text) ->
  loadYml text = Ret (VDict d) ->
  lookup "database" d = Some v -> is_str v = false ->
  exists e, script (YamlMode yaml_file) w = (Raise e, w)
            /\ exn_class_of e = TypeError.
Proof.
  intros Hfile Hload Hdb Hv. rewrite script_yaml.
  assert (Hk : has_key "database" d = true)
    by (apply has_key_lookup; now exists v).
  cbn [bind ret Monad_M]. rewrite (@yaml_loaded _ _ _ _ Hfile Hload Hk).
  cbn [bind ret Monad_M]. rewrite Hdb.
  destruct v; try discriminate; eexists; split; reflexivity.
Qed.

(** X18: with no attack section, or one that is empty, the program
    is the management of the [manage-db] section and nothing else:
    no configuration is assembled, no engine is launched. *)
Theorem no_attack_section_only_manages (yaml_file text db : string)
    (d : items) (w : World) :
  fs w yaml_file = Some (RegularFile text) ->
  loadYml text = Ret (VDict d) ->
  lookup "database" d = Some (VStr db) ->
  truthy (get_or_empty "brute-force" d) = false ->
  script (YamlMode yaml_file) w
  = manage ("--database=" ++ db) (get_or_empty "manage-db" d) w.
Proof.
  intros Hfile Hload Hdb Hbf. rewrite script_yaml.
  assert (Hk : has_key "database" d = true)
    by (apply has_key_lookup; now exists (VStr db)).
  cbn [bind ret Monad_M]. rewrite (@yaml_loaded _ _ _ _ Hfile Hload Hk).
  cbn [bind ret Monad_M]. rewrite Hdb.
  unfold do_brute_force, normalize_brute. rewrite Hbf.
  destruct (manage _ _ w) as [[[]|e|s] w1]; reflexivity.
Qed.

(** X19: the management operations run before the attack section is
    looked at: when the attack section is not empty and has no key
    [module], the program is the management of the [manage-db]
    section followed by the [ValueError]. *)
Theorem management_precedes_attack_check (yaml_file text db : string)
    (d b : items) (w : World) :
  fs w yaml_file = Some (RegularFile text) ->
  loadYml text = Ret (VDict d) ->
  lookup "database" d = Some (VStr db) ->
  get_or_empty "brute-force" d = VDict b -> b <> [] ->
  has_key "module" b = false ->
  script (YamlMode yaml_file) w
  = (manage ("--database=" ++ db) (get_or_empty "manage-db" d) ;;
     lift (fail ValueError
             (quoted "module" ++ " field must be set in the YAML file.") 287)) w.
Proof.
  intros Hfile Hload Hdb Hbf Hb Hm. rewrite script_yaml.
  assert (Hk : has_key "database" d = true)
    by (apply has_key_lookup; now exists (VStr db)).
  cbn [bind ret Monad_M]. rewrite (@yaml_loaded _ _ _ _ Hfile Hload Hk).
  cbn [bind ret Monad_M]. rewrite Hdb, Hbf.
  unfold do_brute_force, normalize_brute, translate_brute. rewrite Hm.
  destruct b as [|kv b]; [contradiction|]. cbn.
  destruct (manage _ _ w) as [[[]|e|s] w1]; reflexivity.
Qed.

(** X20: a management operation whose value is not a mapping raises
    [ValueError] when its turn comes: the operations before it in the
    document have run by then, the ones after it never do. *)
Theorem operation_must_be_a_mapping (db_arg cmd : string) (v : value)
    (pre post : items) (w : World) :
  is_dict v = false ->
  manage db_arg (VDict (pre ++ (cmd, v) :: post)) w
  = (for_each pre (operation db_arg) ;;
     raise ValueError
       ("All db-management subcommands should be configured with a "
        ++ "dictionary of supporting arguments.") 259 "<module>") w.
Proof.
  intros Hv. unfold do_db_management.
  replace (truthy (VDict (pre ++ (cmd, v) :: post))) with true
    by (now destruct pre).
  rewrite for_each_app. cbn [bind ret Monad_M for_each].
  destruct (for_each pre (operation db_arg) w) as [[[]|e|s] w1];
    try reflexivity.
  unfold manage_entry. destruct v; try discriminate; reflexivity.
Qed.

(** X21: the management operations run one after the other in the
    order of the document and stop at the first that does not return
    (it raised, or left the process as after a declined creation):
    that outcome is the outcome of the whole section. *)
Theorem management_stops_at_first_failure (db_arg : string)
    (pre post : items) (x : string * value) (o : outcome unit)
    (w w1 w2 : World) :
  for_each pre (operation db_arg) w = (Ret tt, w1) ->
  operation db_arg x w1 = (o, w2) ->
  (forall u, o <> Ret u) ->
  manage db_arg (VDict (pre ++ x :: post)) w = (o, w2).
Proof.
  intros Hpre Hx Ho. unfold do_db_management.
  replace (truthy (VDict (pre ++ x :: post))) with true by (now destruct pre).
  rewrite for_each_app. cbn [bind ret Monad_M for_each]. rewrite Hpre, Hx.
  destruct o as [u|e|s]; [now destruct (Ho u) | reflexivity..].
Qed.

(** X22: when the management section does not return, the program
    ends there with its outcome: the attack section is not read, no
    engine is launched. *)
Theorem management_failure_ends_program (yaml_file text db : string)
    (d : items) (o : outcome unit) (w w1 : World) :
  fs w yaml_file = Some (RegularFile text) ->
  loadYml text = Ret (VDict d) ->
  lookup "database" d = Some (VStr db) ->
  manage ("--database=" ++ db) (get_or_empty "manage-db" d) w = (o, w1) ->
  (forall u, o <> Ret u) ->
  script (YamlMode yaml_file) w = (o, w1).
Proof.
  intros Hfile Hload Hdb Hm Ho. rewrite script_yaml.
  assert (Hk : has_key "database" d = true)
    by (apply has_key_lookup; now exists (VStr db)).
  cbn [bind ret Monad_M]. rewrite (@yaml_loaded _ _ _ _ Hfile Hload Hk).
  cbn [bind ret Monad_M]. rewrite Hdb. cbn [bind ret Monad_M]. rewrite Hm.
  destruct o as [u|e|s]; [now destruct (Ho u) | reflexivity..].
Qed.

(** X23: a section whose value is false for Python ([null], [false],
    0, an empty string, list or mapping) is skipped like an absent
    one; a section that is not false and not a mapping raises
    [AttributeError] before anything is dispatched or translated. *)
Theorem falsy_sections_are_skipped (db_arg : string) (v : value) (w : World) :
  (truthy v = false ->
   manage db_arg v w = (Ret tt, w) /\ normalize_brute db_arg v = None)
  /\ (truthy v = true -> is_dict v = false ->
      (exists e, manage db_arg v w = (Raise e, w)
                 /\ exn_class_of e = AttributeError)
      /\ (exists e, normalize_brute db_arg v = Some (Raise e)
                    /\ exn_class_of e = AttributeError)).
Proof.
  unfold do_db_management, normalize_brute. split.
  - intros ->. now split.
  - intros -> Hv.
    destruct v; try discriminate; split; eexists; split; reflexivity.
Qed.

(** X24: when [config.validate()] raises, the program ends with that
    exception: no engine is built and nothing is launched. *)
Theorem validation_failure_prevents_launch (ns : Namespace) (m : string)
    (cb : Callback) (aj mj : JitterT) (e : exn) (w w1 w2 w3 w4 : World) :
  module ns = Some m ->
  initialize m ns w = (Ret cb, w1) ->
  Jitter (auth_jitter_min ns) (auth_jitter_max ns) w1 = (Ret aj, w2) ->
  Jitter (threshold_jitter_min ns) (threshold_jitter_max ns) w2 = (Ret mj, w3) ->
  validate (config_of ns cb aj mj) w3 = (Raise e, w4) ->
  script (BruteMode ns) w = (Raise e, w4).
Proof.
  intros Hm Hi Ha Ht Hv. unfold main, brute_mode, assemble.
  cbn [bind ret Monad_M]. rewrite Hm. cbn [bind ret Monad_M].
  rewrite Hi, Ha, Ht. unfold config_of in Hv. now rewrite Hv.
Qed.

(** X25: [assemble] returns a configuration exactly when the
    namespace has a module, the module initializes, the two jitters
    are built (the authentication one first) and the configuration
    passes [validate], in this order; the configuration carries the
    callback, the two jitters and the fields of the namespace. *)
Theorem assemble_returns_a_validated_config (ns : Namespace)
    (config : Config Callback JitterT) (w w' : World) :
  assemble initialize Jitter validate ns w = (Ret config, w')
  <-> exists m cb aj mj w1 w2 w3,
        module ns = Some m
        /\ initialize m ns w = (Ret cb, w1)
        /\ Jitter (auth_jitter_min ns) (auth_jitter_max ns) w1 = (Ret aj, w2)
        /\ Jitter (threshold_jitter_min ns) (threshold_jitter_max ns) w2
           = (Ret mj, w3)
        /\ validate (config_of ns cb aj mj) w3 = (Ret tt, w')
        /\ config = config_of ns cb aj mj.
Proof.
  unfold assemble, config_of. split.
  - destruct (module ns) as [m|]; [|discriminate].
    cbn [bind ret Monad_M].
    destruct (initialize m ns w) as [[cb|e|s] w1] eqn:Hi; try discriminate.
    destruct (Jitter _ _ w1) as [[aj|e|s] w2] eqn:Ha; try discriminate.
    destruct (Jitter _ _ w2) as [[mj|e|s] w3] eqn:Ht; try discriminate.
    destruct (validate _ w3) as [[[]|e|s] w4] eqn:Hv; try discriminate.
    intros H. injection H as <- <-.
    exists m, cb, aj, mj, w1, w2, w3. repeat split; assumption.
  - intros (m & cb & aj & mj & w1 & w2 & w3 & Hm & Hi & Ha & Ht & Hv & ->).
    rewrite Hm. cbn [bind ret Monad_M]. now rewrite Hi, Ha, Ht, Hv.
Qed.

(** X26: the [try:] statement changes nothing unless an exception
    that [except Exception] catches is raised: a launch that returns,
    a [SystemExit] (as from the interrupt handler) and a
    [KeyboardInterrupt] come out as they are, nothing is printed. *)
Theorem uncaught_outcomes_pass (config : Config Callback JitterT)
    (o : outcome unit) (w w1 : World) :
  attack BruteForcer launch config w = (o, w1) ->
  caught o = false ->
  run_campaign BruteForcer launch config w = (o, w1).
Proof.
  intros Ha Ho. unfold run_campaign, try_except. rewrite Ha.
  destruct o as [u|e|s]; try reflexivity. cbn in Ho. now rewrite Ho.
Qed.

(** X27: when the engine is built and its launch returns, the
    campaign logs "Attack complete" and returns; when building the
    engine raises an exception that [except Exception] catches, it is
    reported and the launch does not run. *)
Theorem campaign_runs_to_completion (config : Config Callback JitterT)
    (w w1 : World) :
  (forall bf w2,
     BruteForcer config (after w [Log "bfg" "Initializing attack"]) = (Ret bf, w1) ->
     launch bf w1 = (Ret tt, w2) ->
     run_campaign BruteForcer launch config w
     = (Ret tt, after w2 [Log "bfg" "Attack complete"]))
  /\ (forall e,
        BruteForcer config (after w [Log "bfg" "Initializing attack"])
        = (Raise e, w1) ->
        is_Exception (exn_class_of e) = true ->
        run_campaign BruteForcer launch config w = report e w1).
Proof.
  unfold run_campaign, try_except, attack, log. split.
  - intros bf w2 Hb Hl. cbn [bind ret Monad_M]. rewrite emit_after, Hb, Hl.
    reflexivity.
  - intros e Hb He. cbn [bind ret Monad_M]. rewrite emit_after, Hb.
    now rewrite He.
Qed.

End ProgramProperties.

(** ** The further statements, run *)


Lemma missing_database_is_invalid_witness :
  Scenario.program (VDict [("manage-db", VDict [("add-creds", VDict [])])])
    Scenario.failing_engine (YamlMode "bfg.yml") (Scenario.world ["y"])
  = (Raise (Exn ValueError
              (quoted "database"
               ++ " value must be set in the base of the YAML file.")
              [Frame "bfg.py" 76 "parseYml"]), Scenario.world ["y"]).
Proof.
  unfold Scenario.program.
  apply (@missing_database_is_invalid
           (fun _ => Ret (VDict [("manage-db", VDict [("add-creds", VDict [])])])) [] unit (fun _ => ret tt)
           (fun _ _ _ => ret tt) Scenario.db_grammar Scenario.db_grammar
           Scenario.attack_grammar unit unit unit
           (fun _ _ => ret tt) (fun _ _ => ret tt) (fun _ => ret tt)
           (fun _ => ret tt) Scenario.failing_engine
           "bfg.yml" "<yaml>" [("manage-db", VDict [("add-creds", VDict [])])]
           (Scenario.world ["y"])); reflexivity.
Defined.

Lemma database_must_be_text_witness :
  exists e,
    Scenario.program (VDict [("database", VInt 5)]) Scenario.failing_engine
      (YamlMode "bfg.yml") (Scenario.world [])
    = (Raise e, Scenario.world [])
    /\ exn_class_of e = TypeError.
Proof.
  unfold Scenario.program.
  apply (@database_must_be_text
           (fun _ => Ret (VDict [("database", VInt 5)])) [] unit (fun _ => ret tt)
           (fun _ _ _ => ret tt) Scenario.db_grammar Scenario.db_grammar
           Scenario.attack_grammar unit unit unit
           (fun _ _ => ret tt) (fun _ _ => ret tt) (fun _ => ret tt)
           (fun _ => ret tt) Scenario.failing_engine
           "bfg.yml" "<yaml>" [("database", VInt 5)] (VInt 5)
           (Scenario.world [])); reflexivity.
Defined.

Lemma no_attack_section_only_manages_witness :
  Scenario.program
    (VDict [("database", VStr "a.db");
            ("manage-db", VDict [("add-creds", VDict [("file", VStr "c.txt")])]);
            ("brute-force", VNone)])
    Scenario.failing_engine (YamlMode "bfg.yml") (Cases.with_store [])
  = do_db_management [] (fun _ => ret tt) (fun _ _ _ => ret tt) Scenario.db_grammar
      "--database=a.db"
      (VDict [("add-creds", VDict [("file", VStr "c.txt")])])
      (Cases.with_store []).
Proof.
  unfold Scenario.program.
  apply (@no_attack_section_only_manages
           (fun _ => Ret (VDict [("database", VStr "a.db");
                    ("manage-db", VDict [("add-creds", VDict [("file", VStr "c.txt")])]);
                    ("brute-force", VNone)])) [] unit (fun _ => ret tt)
           (fun _ _ _ => ret tt) Scenario.db_grammar Scenario.db_grammar
           Scenario.attack_grammar unit unit unit
           (fun _ _ => ret tt) (fun _ _ => ret tt) (fun _ => ret tt)
           (fun _ => ret tt) Scenario.failing_engine
           "bfg.yml" "<yaml>" "a.db"
           [("database", VStr "a.db");
            ("manage-db", VDict [("add-creds", VDict [("file", VStr "c.txt")])]);
            ("brute-force", VNone)]
           (Cases.with_store [])); reflexivity.
Defined.

Lemma management_precedes_attack_check_witness :
  Scenario.program
    (VDict [("database", VStr "a.db");
            ("manage-db", VDict [("add-creds", VDict [])]);
            ("brute-force", VDict [("process_count", VInt 4)])])
    Scenario.failing_engine (YamlMode "bfg.yml") (Cases.with_store [])
  = (Raise (Exn ValueError
              (quoted "module" ++ " field must be set in the YAML file.")
              [Frame "bfg.py" 287 "<module>"]),
     after (Cases.with_store [])
       [Log "bfg.dbmanager" "Initializing database manager";
        Log "bfg.dbmanager" "Executing command";
        Log "bfg.dbmanager" "Execution finished. Exiting."]).
Proof.
  unfold Scenario.program. etransitivity.
  - apply (@management_precedes_attack_check
             (fun _ => Ret (VDict [("database", VStr "a.db");
                      ("manage-db", VDict [("add-creds", VDict [])]);
                      ("brute-force", VDict [("process_count", VInt 4)])])) [] unit (fun _ => ret tt)
           (fun _ _ _ => ret tt) Scenario.db_grammar Scenario.db_grammar
           Scenario.attack_grammar unit unit unit
           (fun _ _ => ret tt) (fun _ _ => ret tt) (fun _ => ret tt)
           (fun _ => ret tt) Scenario.failing_engine
             "bfg.yml" "<yaml>" "a.db"
             [("database", VStr "a.db");
              ("manage-db", VDict [("add-creds", VDict [])]);
              ("brute-force", VDict [("process_count", VInt 4)])]
             [("process_count", VInt 4)]
             (Cases.with_store [])); try reflexivity.
    discriminate.
  - reflexivity.
Defined.

Lemma operation_must_be_a_mapping_witness :
  do_db_management [] (fun _ => ret tt) (fun _ _ _ => ret tt) Scenario.db_grammar
    "--database=a.db"
    (VDict [("add-creds", VDict []); ("dump", VStr "out.txt");
            ("prune", VDict [])])
    (Cases.with_store [])
  = (Raise (Exn ValueError
              ("All db-management subcommands should be configured with a "
               ++ "dictionary of supporting arguments.")
              [Frame "bfg.py" 259 "<module>"]),
     after (Cases.with_store [])
       [Log "bfg.dbmanager" "Initializing database manager";
        Log "bfg.dbmanager" "Executing command";
        Log "bfg.dbmanager" "Execution finished. Exiting."]).
Proof.
  etransitivity.
  - apply (@operation_must_be_a_mapping [] unit (fun _ => ret tt) (fun _ _ _ => ret tt) Scenario.db_grammar
             "--database=a.db" "dump" (VStr "out.txt")
             [("add-creds", VDict [])] [("prune", VDict [])]
             (Cases.with_store [])).
    reflexivity.
  - reflexivity.
Defined.

Lemma management_stops_at_first_failure_witness :
  do_db_management [] (fun _ => ret tt) (fun _ _ _ => ret tt) Scenario.db_grammar
    "--database=a.db"
    (VDict [("add-creds", VDict []); ("prune", VDict [])])
    (Scenario.world ["n"; "y"])
  = (Exit 0,
     asked (after (Scenario.world ["n"; "y"])
              [Log "bfg.dbmanager" "Initializing database manager"])
       not_found_prompt 1 ["y"]
       [Log "bfg.dbmanager" "Database not found. Exiting"]).
Proof.
  apply (@management_stops_at_first_failure [] unit (fun _ => ret tt) (fun _ _ _ => ret tt) Scenario.db_grammar
           "--database=a.db" [] [("prune", VDict [])] ("add-creds", VDict [])
           (Exit 0) (Scenario.world ["n"; "y"]) (Scenario.world ["n"; "y"])).
  - reflexivity.
  - reflexivity.
  - discriminate.
Defined.

Lemma management_failure_ends_program_witness :
  Scenario.program
    (VDict [("database", VStr "a.db");
            ("manage-db", VDict [("add-creds", VDict [])]);
            ("brute-force", Scenario.ssh_attack)])
    Scenario.failing_engine (YamlMode "bfg.yml") (Scenario.world ["n"])
  = (Exit 0,
     asked (after (Scenario.world ["n"])
              [Log "bfg.dbmanager" "Initializing database manager"])
       not_found_prompt 1 []
       [Log "bfg.dbmanager" "Database not found. Exiting"]).
Proof.
  unfold Scenario.program.
  apply (@management_failure_ends_program
           (fun _ => Ret (VDict [("database", VStr "a.db");
                    ("manage-db", VDict [("add-creds", VDict [])]);
                    ("brute-force", Scenario.ssh_attack)])) [] unit (fun _ => ret tt)
           (fun _ _ _ => ret tt) Scenario.db_grammar Scenario.db_grammar
           Scenario.attack_grammar unit unit unit
           (fun _ _ => ret tt) (fun _ _ => ret tt) (fun _ => ret tt)
           (fun _ => ret tt) Scenario.failing_engine
           "bfg.yml" "<yaml>" "a.db"
           [("database", VStr "a.db");
            ("manage-db", VDict [("add-creds", VDict [])]);
            ("brute-force", Scenario.ssh_attack)]
           (Exit 0) (Scenario.world ["n"])); try reflexivity.
  discriminate.
Defined.

Lemma falsy_sections_are_skipped_witness :
  (exists e,
     do_db_management [] (fun _ => ret tt) (fun _ _ _ => ret tt) Scenario.db_grammar
       "--database=a.db" (VList [VStr "add-creds"]) (Scenario.world [])
     = (Raise e, Scenario.world [])
     /\ exn_class_of e = AttributeError)
  /\ (exists e,
        normalize_brute "--database=a.db" (VList [VStr "add-creds"])
        = Some (Raise e)
        /\ exn_class_of e = AttributeError).
Proof.
  apply (proj2 (@falsy_sections_are_skipped [] unit (fun _ => ret tt) (fun _ _ _ => ret tt) Scenario.db_grammar
                  "--database=a.db" (VList [VStr "add-creds"])
                  (Scenario.world []))); reflexivity.
Defined.

Lemma validation_failure_prevents_launch_witness :
  main (fun _ => Ret Scenario.ssh) [] (fun _ => ret tt) (fun _ _ _ => ret tt)
    Scenario.db_grammar Scenario.db_grammar Scenario.attack_grammar
    (fun _ _ => ret tt) (fun _ _ => ret tt) Cases.refusing_validate
    (fun _ => ret tt) Scenario.failing_engine
    (BruteMode Scenario.namespace) (Scenario.world [])
  = (Raise Cases.invalid, Scenario.world []).
Proof.
  apply (@validation_failure_prevents_launch
           (fun _ => Ret Scenario.ssh) [] unit (fun _ => ret tt)
           (fun _ _ _ => ret tt) Scenario.db_grammar Scenario.db_grammar
           Scenario.attack_grammar unit unit unit
           (fun _ _ => ret tt) (fun _ _ => ret tt) Cases.refusing_validate
           (fun _ => ret tt) Scenario.failing_engine
           Scenario.namespace "ssh" tt tt tt Cases.invalid
           (Scenario.world []) (Scenario.world []) (Scenario.world [])
           (Scenario.world []) (Scenario.world [])); reflexivity.
Defined.

Lemma assemble_returns_a_validated_config_witness :
  assemble (fun _ _ => ret tt) (fun _ _ => ret tt) (fun _ => ret tt)
    Scenario.namespace (Scenario.world [])
  = (Ret (config_of Scenario.namespace tt tt tt), Scenario.world []).
Proof.
  apply (proj2 (@assemble_returns_a_validated_config unit unit
                  (fun _ _ => ret tt) (fun _ _ => ret tt) (fun _ => ret tt)
                  Scenario.namespace (config_of Scenario.namespace tt tt tt)
                  (Scenario.world []) (Scenario.world []))).
  exists "ssh", tt, tt, tt, (Scenario.world []), (Scenario.world []),
    (Scenario.world []).
  repeat split.
Defined.

Lemma uncaught_outcomes_pass_witness :
  run_campaign (fun _ => ret tt) (fun (_ : unit) w => (Exit 0, w))
    (config_of Scenario.namespace tt tt tt) (Scenario.world [])
  = (Exit 0, after (Scenario.world []) [Log "bfg" "Initializing attack"]).
Proof.
  apply (@uncaught_outcomes_pass unit unit unit (fun _ => ret tt)
           (fun (_ : unit) w => (Exit 0, w))
           (config_of Scenario.namespace tt tt tt) (Exit 0)
           (Scenario.world [])
           (after (Scenario.world []) [Log "bfg" "Initializing attack"]));
    reflexivity.
Defined.

Lemma campaign_runs_to_completion_witness :
  run_campaign (fun _ => ret tt) (fun (_ : unit) => ret tt)
    (config_of Scenario.namespace tt tt tt) (Scenario.world [])
  = (Ret tt,
     after (after (Scenario.world []) [Log "bfg" "Initializing attack"])
       [Log "bfg" "Attack complete"]).
Proof.
  apply (proj1 (@campaign_runs_to_completion unit unit unit (fun _ => ret tt)
                  (fun (_ : unit) => ret tt)
                  (config_of Scenario.namespace tt tt tt)
                  (Scenario.world [])
                  (after (Scenario.world []) [Log "bfg" "Initializing attack"]))
           tt (after (Scenario.world []) [Log "bfg" "Initializing attack"]));
    reflexivity.
Defined.

(** ** The order of the tokens *)

Lemma flag_block_declared (fv : string * value) :
  flag_block fv = Declared.flag fv.
Proof.
  destruct fv as [f v]. unfold flag_block, Declared.flag, flag_values.
  destruct v as [| [|] | | | |]; reflexivity.
Qed.

Lemma manage_args_declared (cmd db_arg : string) (argset : items) :
  manage_args cmd db_arg argset = Declared.operation cmd db_arg argset.
Proof.
  rewrite manage_args_blocks. unfold Declared.operation.
  rewrite flat_map_concat_map. do 3 f_equal.
  apply map_ext. exact flag_block_declared.
Qed.

Lemma has_key_of_lookup (k : string) (d : items) :
  has_key k d = match lookup k d with Some _ => true | None => false end.
Proof.
  destruct (lookup k d) as [v|] eqn:H.
  - apply has_key_lookup. now exists v.
  - now apply has_key_false_lookup.
Qed.

Lemma module_args_built (m : items) (name : value) (a : items) :
  lookup "name" m = Some name -> lookup "args" m = Some (VDict a) ->
  module_args (VDict m) = Ret (name :: map Declared.argument a).
Proof.
  intros Hn Ha. unfold module_args, subscript.
  cbn [py_in bind ret Monad_outcome].
  rewrite !has_key_of_lookup, Hn, Ha. reflexivity.
Qed.

Lemma brute_entry_declared (kv : string * value) (block : list value) :
  brute_entry kv = Ret block
  <-> Declared.well_formed kv /\ block = Declared.entry kv.
Proof.
  destruct kv as [k v]. unfold brute_entry, Declared.entry, Declared.well_formed.
  cbn [fst snd]. destruct (String.eqb k "module") eqn:Hk; cbn [negb].
  - apply String.eqb_eq in Hk. split.
    + intros H. apply module_args_inv in H.
      destruct H as (m & name & a & -> & Hn & Ha & ->). split.
      * intros _. now exists m, name, a.
      * now rewrite Hn, Ha.
    + intros [Hwf ->]. destruct (Hwf Hk) as (m & name & a & -> & Hn & Ha).
      rewrite Hn, Ha. now apply module_args_built.
  - apply String.eqb_neq in Hk. split.
    + intros H. split; [intros Hm; contradiction|].
      destruct v as [| [|] | | | |]; cbn in H; now injection H as <-.
    + intros [_ ->]. destruct v as [| [|] | | | |]; reflexivity.
Qed.

Lemma collect_declared (d : items) (bs : list (list value)) :
  collect brute_entry d = Ret bs
  <-> Forall Declared.well_formed d /\ bs = map Declared.entry d.
Proof.
  revert bs. induction d as [|kv d IH]; intros bs;
    cbn [collect bind ret Monad_outcome map].
  - split; [intros H; injection H as <-; now split | now intros [_ ->]].
  - split.
    + destruct (brute_entry kv) as [block|e|x] eqn:Hb; try discriminate.
      destruct (collect brute_entry d) as [bs'|e|x] eqn:Hc; try discriminate.
      intros H. injection H as <-.
      apply brute_entry_declared in Hb. destruct Hb as [Hwf ->].
      destruct (proj1 (IH bs') eq_refl) as [Hd ->].
      split; [now constructor | reflexivity].
    + intros [Hwf ->]. inversion Hwf as [|? ? Hkv Hd]; subst.
      rewrite (proj2 (brute_entry_declared kv _) (conj Hkv eq_refl)).
      now rewrite (proj2 (IH _) (conj Hd eq_refl)).
Qed.

Lemma translate_brute_declared (db_arg : string) (d : items)
    (toks : list value) :
  translate_brute db_arg d = Ret toks
  <-> has_key "module" d = true /\ Forall Declared.well_formed d
      /\ toks = Declared.attack db_arg d.
Proof.
  unfold translate_brute, Declared.attack. rewrite flat_map_concat_map.
  destruct (has_key "module" d); cbn [negb].
  - rewrite brute_loop_blocks. split.
    + destruct (collect brute_entry d) as [bs|e|x] eqn:Hc; try discriminate.
      cbn. intros H. injection H as <-.
      apply collect_declared in Hc. destruct Hc as [Hwf ->]. now repeat split.
    + intros (_ & Hwf & ->).
      now rewrite (proj2 (collect_declared d _) (conj Hwf eq_refl)).
  - split; [discriminate | intros [H _]; discriminate].
Qed.

(** The module gives its name before the flags of its arguments
    where the document declares [args] before [name], and gives the
    same tokens as the document that declares [name] first. *)
Lemma declared_order_of_name_and_args_is_not_kept :
  normalize_brute "--database=a.db"
    (VDict [("module", VDict [("args", VDict [("port", VInt 22)]);
                              ("name", VStr "ssh")])])
  = Some (Ret [VStr "--database=a.db"; VStr "ssh"; VStr "--port=22"])
  /\ occurs_in_order ["--port=22"; "ssh"]
       [VStr "--database=a.db"; VStr "ssh"; VStr "--port=22"] = false
  /\ normalize_brute "--database=a.db"
       (VDict [("module", VDict [("name", VStr "ssh");
                                 ("args", VDict [("port", VInt 22)])])])
     = Some (Ret [VStr "--database=a.db"; VStr "ssh"; VStr "--port=22"]).
Proof. repeat split. Qed.

(** C8, amended: the tokens follow the order of the document where
    the normalizer iterates over it.  The tokens of a management
    operation are the command, the database flag and then, flag
    after flag in the order of the document, the name of the flag
    and its values, the elements of a list in their order.  The
    attack section is translated exactly when it has a [module] that
    is a mapping with a [name] and with [args] that are a mapping,
    and its tokens are then the database flag and, entry after entry
    in the order of the document, one flag per parameter and, for
    [module], the name followed by one flag per argument in the
    order of the document.  Reordering the flags of an operation,
    the elements of a list, the entries of the attack section or the
    arguments of the module reorders the tokens in the same way.
    The order of [name] and [args] inside [module] changes nothing:
    the name comes first.  In every world and with every grammar,
    the tokens of a document are the same. *)
Theorem tokens_follow_the_iteration_order
    (cmd db_arg : string) (argset d : items) (sigma : list nat) :
  manage_args cmd db_arg argset = Declared.operation cmd db_arg argset
  /\ (forall toks,
        translate_brute db_arg d = Ret toks
        <-> has_key "module" d = true /\ Forall Declared.well_formed d
            /\ toks = Declared.attack db_arg d)
  /\ manage_args cmd db_arg (select sigma argset)
     = cmd :: db_arg :: List.concat (select sigma (map Declared.flag argset))
  /\ (forall f l,
        manage_args cmd db_arg [(f, VList (select sigma l))]
        = cmd :: db_arg :: ("--" ++ f)%string :: select sigma (map py_str l))
  /\ (forall toks,
        translate_brute db_arg d = Ret toks ->
        Permutation sigma (seq 0 (List.length d)) ->
        translate_brute db_arg (select sigma d)
        = Ret (VStr db_arg
               :: List.concat (select sigma (map Declared.entry d))))
  /\ (forall m name a,
        lookup "name" m = Some name ->
        lookup "args" m = Some (VDict (select sigma a)) ->
        module_args (VDict m)
        = Ret (name :: select sigma (map Declared.argument a)))
  /\ (forall m m',
        lookup "name" m = lookup "name" m' ->
        lookup "args" m = lookup "args" m' ->
        module_args (VDict m) = module_args (VDict m'))
  /\ (forall toks brute_sp args w,
        translate_brute db_arg d = Ret toks ->
        do_brute_force brute_sp db_arg (VDict d) args w
        = (print (py_str (VList toks)) ;;
           ns <- brute_sp toks ;;
           emit StdoutNamespace ;;
           ret (BruteMode ns)) w)
  /\ (forall argv (Handle : Type) (Manager : string -> M Handle)
             run_cmd db_sp w,
        manage_entry argv Manager run_cmd db_sp db_arg (cmd, VDict argset) w
        = run_db_command argv Manager run_cmd db_sp
            (Some (Declared.operation cmd db_arg argset)) w).
Proof.
  split; [apply manage_args_declared|].
  split; [intros toks; apply translate_brute_declared|].
  split.
  { rewrite manage_args_declared. unfold Declared.operation.
    now rewrite flat_map_concat_map, select_map. }
  split.
  { intros f l. rewrite manage_args_declared.
    unfold Declared.operation, Declared.flag. cbn [flat_map fst snd].
    now rewrite app_nil_r, select_map. }
  split.
  { intros toks Hok Hperm.
    apply translate_brute_declared in Hok. destruct Hok as (Hk & Hwf & _).
    pose proof (select_permutation d Hperm) as Hsel.
    apply translate_brute_declared. repeat split.
    - now rewrite (has_key_permutation "module" Hsel).
    - apply Forall_forall. intros kv Hin.
      apply (Permutation_in _ Hsel) in Hin.
      now apply (proj1 (Forall_forall _ _) Hwf).
    - unfold Declared.attack. now rewrite flat_map_concat_map, select_map. }
  split.
  { intros m name a Hn Ha. rewrite (module_args_built m Hn Ha).
    now rewrite select_map. }
  split.
  { intros m m' Hn Ha. unfold module_args, subscript.
    cbn [py_in bind ret Monad_outcome].
    now rewrite !has_key_of_lookup, Hn, Ha. }
  split.
  { intros toks brute_sp args w Hok.
    unfold do_brute_force, normalize_brute.
    assert (Ht : truthy (VDict d) = true).
    { apply translate_brute_declared in Hok. destruct Hok as (Hk & _).
      destruct d; [discriminate | reflexivity]. }
    rewrite Ht, Hok. reflexivity. }
  intros argv Handle Manager run_cmd db_sp w.
  unfold manage_entry. now rewrite manage_args_declared.
Qed.

Lemma tokens_follow_the_iteration_order_witness :
  translate_brute "--database=a.db"
    [("process_count", VInt 4);
     ("module", VDict [("name", VStr "ssh");
                       ("args", VDict [("port", VInt 22)])])]
  = Ret [VStr "--database=a.db"; VStr "--process-count=4";
         VStr "ssh"; VStr "--port=22"].
Proof.
  apply (proj1 (proj2 (proj2 (proj2 (proj2
           (tokens_follow_the_iteration_order "add-creds" "--database=a.db"
              [("file", VStr "c.txt")]
              [("module", VDict [("name", VStr "ssh");
                                 ("args", VDict [("port", VInt 22)])]);
               ("process_count", VInt 4)]
              [1%nat; 0%nat])))))
         [VStr "--database=a.db"; VStr "ssh"; VStr "--port=22";
          VStr "--process-count=4"]).
  - reflexivity.
  - apply perm_swap.
Defined.
